(** * Verification model of CODE_SMARTY's analysis backend (src/backend/app.py)

    Shallow embedding of the Python backend.  Python [str] values are
    modelled as [string] (ASCII subset); Python exceptions are values of
    the error monad [Exc]; external collaborators (LLM, Docker, command
    line tools, file system, Python's own parser) are Section variables. *)

From Stdlib Require Import String Ascii List Bool Arith Lia ZArith DecimalString.
Import ListNotations.
Open Scope string_scope.
Open Scope list_scope.

(* ------------------------------------------------------------------ *)
(** ** Python exceptions as an error monad *)

(** A raised Python exception: its class name and [str(e)]. *)
Record pyexc := mk_exc { exc_type : string; exc_msg : string }.

Inductive Exc (A : Type) : Type :=
| Ok (a : A)
| Raise (e : pyexc).
Arguments Ok {A} a.
Arguments Raise {A} e.

Definition exc_bind {A B} (m : Exc A) (f : A -> Exc B) : Exc B :=
  match m with Ok a => f a | Raise e => Raise e end.

Notation "x <- m ;; k" := (exc_bind m (fun x => k))
  (at level 61, m at next level, right associativity).

Definition raises {A} (m : Exc A) : bool :=
  match m with Ok _ => false | Raise _ => true end.

(** Python's short-circuit [a or b] on boolean results that may raise. *)
Definition or_exc (a : Exc bool) (b : unit -> Exc bool) : Exc bool :=
  match a with Ok true => Ok true | Ok false => b tt | Raise e => Raise e end.

(* ------------------------------------------------------------------ *)
(** ** Strings: the Python [str] operations the backend uses *)

Definition chars (s : string) : list ascii := list_ascii_of_string s.

Fixpoint prefixb (p s : list ascii) : bool :=
  match p, s with
  | [], _ => true
  | a :: p', b :: s' => Ascii.eqb a b && prefixb p' s'
  | _, _ => false
  end.

Fixpoint contains_l (sub s : list ascii) : bool :=
  prefixb sub s || match s with [] => false | _ :: s' => contains_l sub s' end.

(** [sub in s] *)
Definition contains (s sub : string) : bool := contains_l (chars sub) (chars s).

(** [str.isspace] on one character (ASCII range: \t \n \v \f \r, the
    separators \x1c..\x1f, and the space). *)
Definition py_isspace (c : ascii) : bool :=
  let n := nat_of_ascii c in Nat.leb 9 n && Nat.leb n 13 || Nat.leb 28 n && Nat.leb n 32.

(** [not s.strip()]: the string is empty or only whitespace. *)
Definition strip_is_empty (s : string) : bool := forallb py_isspace (chars s).

Fixpoint join (sep : string) (l : list string) : string :=
  match l with
  | [] => ""
  | [x] => x
  | x :: r => (x ++ sep ++ join sep r)%string
  end.

Definition nl : string := String (ascii_of_nat 10) EmptyString.

(* ------------------------------------------------------------------ *)
(** ** Python's [re] module: a backtracking matcher

    Patterns are written as syntax trees of the pattern strings of the
    source.  Alternatives are tried left first, [*] is greedy, [(...)]
    captures, [\n] is a back-reference and [(?!...)] a negative
    lookahead, as in Python's [sre]. *)
Module Re.

Inductive regex : Type :=
| Eps
| Chr (c : ascii)
| Cls (p : ascii -> bool)
| Seq (r1 r2 : regex)
| Alt (r1 r2 : regex)
| Star (r : regex)
| Group (n : nat) (r : regex)
| Backref (n : nat)
| NegLook (r : regex).

Definition is_digit (c : ascii) : bool :=
  let n := nat_of_ascii c in Nat.leb 48 n && Nat.leb n 57.
Definition is_word (c : ascii) : bool :=
  let n := nat_of_ascii c in
  is_digit c || Nat.leb 65 n && Nat.leb n 90 || Nat.leb 97 n && Nat.leb n 122
  || Nat.eqb n 95.

(** [\s], [\w], [\d] and [.] (any character but a newline). *)
Definition S_ := Cls py_isspace.
Definition W_ := Cls is_word.
Definition D_ := Cls is_digit.
Definition Dot := Cls (fun c => negb (Nat.eqb (nat_of_ascii c) 10)).

Definition Plus (r : regex) : regex := Seq r (Star r).

(** A literal text. *)
Fixpoint Lit_l (l : list ascii) : regex :=
  match l with
  | [] => Eps
  | [c] => Chr c
  | c :: r => Seq (Chr c) (Lit_l r)
  end.
Definition Lit (s : string) : regex := Lit_l (chars s).

(** Concatenation of several pieces. *)
Fixpoint Cat (l : list regex) : regex :=
  match l with
  | [] => Eps
  | [r] => r
  | r :: rs => Seq r (Cat rs)
  end.

Fixpoint size (r : regex) : nat :=
  match r with
  | Eps | Chr _ | Cls _ | Backref _ => 1
  | Seq a b | Alt a b => S (size a + size b)
  | Star a | Group _ a | NegLook a => S (size a)
  end.

(** Group numbers defined by a pattern, and the [re.compile] check that
    every back-reference names a group closed before it. *)
Fixpoint groups (r : regex) : list nat :=
  match r with
  | Seq a b | Alt a b => groups a ++ groups b
  | Star a | NegLook a => groups a
  | Group n a => groups a ++ [n]
  | _ => []
  end.

Fixpoint valid_from (closed : list nat) (r : regex) : option (list nat) :=
  match r with
  | Backref n => if existsb (Nat.eqb n) closed then Some closed else None
  | Seq a b => match valid_from closed a with
               | Some c => valid_from c b | None => None end
  | Alt a b => match valid_from closed a, valid_from closed b with
               | Some c1, Some c2 => Some (c1 ++ c2) | _, _ => None end
  | Star a | NegLook a => valid_from closed a
  | Group n a => match valid_from closed a with
                 | Some c => Some (n :: c) | None => None end
  | _ => Some closed
  end.

(** The [re.error] raised when a pattern refers to a group it does not
    have.  The one such pattern of the program is the Java pattern of
    line 391, whose [\1] sits at offset 28; Python's message for it. *)
Definition compile_error : pyexc :=
  mk_exc "re.error" "invalid group reference 1 at position 28".

(** Captures: group number to captured text, latest first. *)
Definition caps := list (nat * list ascii).

Fixpoint cap_lookup (n : nat) (c : caps) : option (list ascii) :=
  match c with
  | [] => None
  | (m, t) :: r => if Nat.eqb n m then Some t else cap_lookup n r
  end.

Definition orelse {A} (a b : option A) : option A :=
  match a with Some _ => a | None => b end.

(** [mt fuel r s c k]: match [r] at the front of [s], then call the
    continuation [k] on the rest; the first success in backtracking
    order wins.  The fuel bounds the recursion depth. *)
Fixpoint mt {A : Type} (fuel : nat) (r : regex) (s : list ascii) (c : caps)
    (k : list ascii -> caps -> option A) {struct fuel} : option A :=
  match fuel with
  | 0 => None
  | S f =>
    match r with
    | Eps => k s c
    | Chr a => match s with b :: s' => if Ascii.eqb a b then k s' c else None
                            | [] => None end
    | Cls p => match s with b :: s' => if p b then k s' c else None
                            | [] => None end
    | Seq r1 r2 => mt f r1 s c (fun s' c' => mt f r2 s' c' k)
    | Alt r1 r2 => orelse (mt f r1 s c k) (mt f r2 s c k)
    | Star r1 =>
        orelse (mt f r1 s c (fun s' c' =>
                   if Nat.ltb (length s') (length s) then mt f (Star r1) s' c' k else None))
               (k s c)
    | Group n r1 =>
        mt f r1 s c (fun s' c' => k s' ((n, firstn (length s - length s') s) :: c'))
    | Backref n =>
        match cap_lookup n c with
        | Some t => if prefixb t s then k (skipn (length t) s) c else None
        | None => None
        end
    | NegLook r1 =>
        match mt f r1 s c (fun _ _ => Some tt) with
        | Some _ => None
        | None => k s c
        end
    end
  end.

Definition fuel_for (r : regex) (s : list ascii) : nat := size r * (length s + 2).

(** A match at the front of [s]: the rest and the captures. *)
Definition match_at (r : regex) (s : list ascii) : option (list ascii * caps) :=
  mt (fuel_for r s) r s [] (fun s' c => Some (s', c)).

(** [re.search(r, s)] as a truth value, the pattern being valid. *)
Fixpoint search_l (r : regex) (s : list ascii) : bool :=
  match match_at r s with
  | Some _ => true
  | None => match s with [] => false | _ :: s' => search_l r s' end
  end.

Definition search (r : regex) (s : string) : Exc bool :=
  match valid_from [] r with
  | Some _ => Ok (search_l r (chars s))
  | None => Raise compile_error
  end.

(** [re.findall(r, s)]: the captured groups [gs] of every
    non-overlapping match, scanning left to right. *)
Fixpoint findall_l (r : regex) (gs : list nat) (n : nat) (s : list ascii)
    : list (list string) :=
  match n with
  | 0 => []
  | S n' =>
    match s with
    | [] => match match_at r s with
            | Some (_, c) => [map (fun g => match cap_lookup g c with
                                            | Some t => string_of_list_ascii t
                                            | None => "" end) gs]
            | None => [] end
    | _ :: s1 =>
      match match_at r s with
      | Some (rest, c) =>
          map (fun g => match cap_lookup g c with
                        | Some t => string_of_list_ascii t
                        | None => "" end) gs
          :: findall_l r gs n' (if Nat.ltb (length rest) (length s) then rest else s1)
      | None => findall_l r gs n' s1
      end
    end
  end.

Definition findall (r : regex) (gs : list nat) (s : string) : Exc (list (list string)) :=
  match valid_from [] r with
  | Some _ => Ok (findall_l r gs (S (length (chars s))) (chars s))
  | None => Raise compile_error
  end.

End Re.

Import Re.

(** [re.search(p1, s) or re.search(p2, s) or ...], evaluated left to right. *)
Fixpoint search_any (ps : list regex) (s : string) : Exc bool :=
  match ps with
  | [] => Ok false
  | p :: ps' => or_exc (search p s) (fun _ => search_any ps' s)
  end.

(* ------------------------------------------------------------------ *)
(** ** [detect_language_with_regex] (app.py, lines 48-80) *)
Module Detect.

(** [def\s+\w+\s*\(.*\)\s*:], [import\s+\w+], [from\s+\w+\s+import],
    [print\s*\(] *)
Definition python_markers : list regex :=
  [ Cat [Lit "def"; Plus S_; Plus W_; Star S_; Lit "("; Star Dot; Lit ")"; Star S_; Lit ":"];
    Cat [Lit "import"; Plus S_; Plus W_];
    Cat [Lit "from"; Plus S_; Plus W_; Plus S_; Lit "import"];
    Cat [Lit "print"; Star S_; Lit "("] ].

(** [public\s+class\s+\w+], [public\s+static\s+void\s+main],
    [System\.out\.println], [import\s+java\.] *)
Definition java_markers : list regex :=
  [ Cat [Lit "public"; Plus S_; Lit "class"; Plus S_; Plus W_];
    Cat [Lit "public"; Plus S_; Lit "static"; Plus S_; Lit "void"; Plus S_; Lit "main"];
    Lit "System.out.println";
    Cat [Lit "import"; Plus S_; Lit "java."] ].

(** [#include\s*<(iostream|vector|string|algorithm)>], [std::],
    [cout\s*<<], [namespace], [class\s+\w+\s*\{] *)
Definition cpp_markers : list regex :=
  [ Cat [Lit "#include"; Star S_; Lit "<";
         Group 1 (Alt (Lit "iostream") (Alt (Lit "vector") (Alt (Lit "string") (Lit "algorithm"))));
         Lit ">"];
    Lit "std::";
    Cat [Lit "cout"; Star S_; Lit "<<"];
    Lit "namespace";
    Cat [Lit "class"; Plus S_; Plus W_; Star S_; Lit "{"] ].

(** [#include\s*<(stdio\.h|stdlib\.h|string\.h)>], [printf\s*\(],
    [malloc\s*\(], [void\s+\w+\s*\(] *)
Definition c_markers : list regex :=
  [ Cat [Lit "#include"; Star S_; Lit "<";
         Group 1 (Alt (Lit "stdio.h") (Alt (Lit "stdlib.h") (Lit "string.h")));
         Lit ">"];
    Cat [Lit "printf"; Star S_; Lit "("];
    Cat [Lit "malloc"; Star S_; Lit "("];
    Cat [Lit "void"; Plus S_; Plus W_; Star S_; Lit "("] ].

Definition detect_language_with_regex (code : string) : Exc string :=
  py <- search_any python_markers code ;;
  if py then Ok "python" else
  jv <- search_any java_markers code ;;
  if jv then Ok "java" else
  cp <- search_any cpp_markers code ;;
  if cp then Ok "cpp" else
  c <- search_any c_markers code ;;
  if c then Ok "c" else
  Ok "python".

End Detect.

(* ------------------------------------------------------------------ *)
(** ** Decimal numbers: Python's [int(s)] on a digit string, and [str(n)] *)

Fixpoint py_int_l (acc : nat) (l : list ascii) : nat :=
  match l with
  | [] => acc
  | c :: r => py_int_l (acc * 10 + (nat_of_ascii c - 48)) r
  end.
Definition py_int (s : string) : nat := py_int_l 0 (chars s).

Definition isdigit (s : string) : bool :=
  match chars s with [] => false | l => forallb is_digit l end.

Definition py_str_nat (n : nat) : string :=
  DecimalString.NilZero.string_of_uint (Nat.to_uint n).

(* ------------------------------------------------------------------ *)
(** ** The conceptual scan of [run_c_static_analysis] (lines 124-165) *)
Module Conceptual.

(** [\w+\s*=\s*NULL\s*;\s*.*\w+\s*->\s*\w+] and [\w+\s*=\s*NULL\s*;\s*.*\*\w+] *)
Definition null_deref : list regex :=
  [ Cat [Plus W_; Star S_; Lit "="; Star S_; Lit "NULL"; Star S_; Lit ";"; Star S_;
         Star Dot; Plus W_; Star S_; Lit "->"; Star S_; Plus W_];
    Cat [Plus W_; Star S_; Lit "="; Star S_; Lit "NULL"; Star S_; Lit ";"; Star S_;
         Star Dot; Lit "*"; Plus W_] ].

(** [(int|float|double|char|long)\s+(\w+)\s*;(?!\s*\2\s*=)] *)
Definition uninit : regex :=
  Cat [Group 1 (Alt (Lit "int") (Alt (Lit "float") (Alt (Lit "double")
                  (Alt (Lit "char") (Lit "long")))));
       Plus S_; Group 2 (Plus W_); Star S_; Lit ";";
       NegLook (Cat [Star S_; Backref 2; Star S_; Lit "="])].

(** [(strcpy|strcat)\s*\(\s*\w+\s*,] and [strn(cpy|cat)] *)
Definition unsafe_copy : regex :=
  Cat [Group 1 (Alt (Lit "strcpy") (Lit "strcat")); Star S_; Lit "("; Star S_;
       Plus W_; Star S_; Lit ","].
Definition bounded_copy : regex :=
  Cat [Lit "strn"; Group 1 (Alt (Lit "cpy") (Lit "cat"))].

(** [for\s*\(\s*.*;\s*;] *)
Definition infinite_for : regex :=
  Cat [Lit "for"; Star S_; Lit "("; Star S_; Star Dot; Lit ";"; Star S_; Lit ";"].

(** [free\s*\(\s*\w+\s*\)\s*;.*\w+\s*->] and [free\s*\(\s*\w+\s*\)\s*;.*\*\w+] *)
Definition dangling : list regex :=
  [ Cat [Lit "free"; Star S_; Lit "("; Star S_; Plus W_; Star S_; Lit ")"; Star S_;
         Lit ";"; Star Dot; Plus W_; Star S_; Lit "->"];
    Cat [Lit "free"; Star S_; Lit "("; Star S_; Plus W_; Star S_; Lit ")"; Star S_;
         Lit ";"; Star Dot; Lit "*"; Plus W_] ].

(** [(\w+)\s*\[\s*(\d+)\s*\]] *)
Definition array_decl : regex :=
  Cat [Group 1 (Plus W_); Star S_; Lit "["; Star S_; Group 2 (Plus D_); Star S_; Lit "]"].

(** [rf'{array_name}\s*\[\s*\d+\s*\]'] and [rf'{array_name}\s*\[\s*(\d+)\s*\]']:
    the array name is a [\w+] match, so it stands for itself. *)
Definition array_use (name : string) : regex :=
  Cat [Lit name; Star S_; Lit "["; Star S_; Plus D_; Star S_; Lit "]"].
Definition array_index (name : string) : regex :=
  Cat [Lit name; Star S_; Lit "["; Star S_; Group 1 (Plus D_); Star S_; Lit "]"].

Definition msg_null := "Potential NULL pointer dereference detected".
Definition msg_leak := "Potential memory leak: malloc used without corresponding free".
Definition msg_uninit := "Potentially uninitialized variables: ".
Definition msg_overflow :=
  "Potential buffer overflow risk: using strcpy/strcat without bounds checking".
Definition msg_loop := "Potential infinite loop: missing loop condition".
Definition msg_dangling := "Potential use of dangling pointer after free".
Definition msg_oob (name idx size : string) :=
  ("Potential array out of bounds: " ++ name ++ "[" ++ idx ++ "] exceeds size " ++ size)%string.
Definition msg_none := "No conceptual issues detected".

(** [if cond: conceptual_errors.append(msg)] *)
Definition append_if (c : Exc bool) (m : string) (acc : list string) : Exc (list string) :=
  b <- c ;; Ok (if b then acc ++ [m] else acc).

(** [for idx in indices: if idx.isdigit() and int(idx) >= int(size): append] *)
Definition oob_msgs (name size : string) (indices : list string) : list string :=
  flat_map (fun idx => if isdigit idx && Nat.leb (py_int size) (py_int idx)
                       then [msg_oob name idx size] else []) indices.

(** The loop over [array_decls] (lines 154-160). *)
Fixpoint array_checks (code : string) (decls : list (list string)) (acc : list string)
    : Exc (list string) :=
  match decls with
  | [] => Ok acc
  | d :: ds =>
      let name := nth 0 d "" in
      let size := nth 1 d "" in
      used <- search (array_use name) code ;;
      acc' <- (if used then
                 idxs <- findall (array_index name) [1] code ;;
                 Ok (acc ++ oob_msgs name size (map (fun g => nth 0 g "") idxs))
               else Ok acc) ;;
      array_checks code ds acc'
  end.

(** The list [conceptual_errors] built by lines 125-160. *)
Definition conceptual_errors (code : string) : Exc (list string) :=
  e1 <- append_if (search_any null_deref code) msg_null [] ;;
  e2 <- append_if (Ok (contains code "malloc" && negb (contains code "free"))) msg_leak e1 ;;
  uv <- findall uninit [1; 2] code ;;
  let e3 := match uv with
            | [] => e2
            | _ => e2 ++ [(msg_uninit ++ join ", " (map (fun v => nth 1 v "") uv))%string]
            end in
  e4 <- append_if (b1 <- search unsafe_copy code ;;
                   if b1 then (b2 <- search bounded_copy code ;; Ok (negb b2))
                   else Ok false) msg_overflow e3 ;;
  e5 <- append_if (search infinite_for code) msg_loop e4 ;;
  e6 <- append_if (search_any dangling code) msg_dangling e5 ;;
  decls <- findall array_decl [1; 2] code ;;
  array_checks code decls e6.

(** [results["conceptual_errors"]] (lines 162-165). *)
Definition conceptual_report (code : string) : Exc string :=
  errs <- conceptual_errors code ;;
  Ok (match errs with [] => msg_none | _ => join nl errs end).

End Conceptual.

(** [;\s*;], the tail of the loop rule's pattern [for\s*\(\s*.*;\s*;]:
    used to state which texts the loop rule can flag. *)
Definition semi_gap : regex := Cat [Lit ";"; Star S_; Lit ";"].

(* ------------------------------------------------------------------ *)
(** ** State with Python exceptions

    [ST S A]: a computation over a state [S] that returns a value or
    raises; effects done before a raise persist, as in Python. *)

Definition ST (S A : Type) : Type := S -> Exc A * S.

Definition st_ret {S A} (a : A) : ST S A := fun s => (Ok a, s).
Definition st_bind {S A B} (m : ST S A) (f : A -> ST S B) : ST S B :=
  fun s => match m s with
           | (Ok a, s') => f a s'
           | (Raise e, s') => (Raise e, s')
           end.
Definition st_lift {S A} (m : Exc A) : ST S A := fun s => (m, s).
(** [try: m except Exception as e: h(e)] *)
Definition st_try {S A} (m : ST S A) (h : pyexc -> ST S A) : ST S A :=
  fun s => match m s with
           | (Ok a, s') => (Ok a, s')
           | (Raise e, s') => h e s'
           end.

Notation "x <-- m ;;; k" := (st_bind m (fun x => k))
  (at level 61, m at next level, right associativity).

(** Python dicts keep insertion order; [d[k] = v] replaces in place. *)
Definition dict (V : Type) := list (string * V).

Fixpoint dict_set {V} (k : string) (v : V) (d : dict V) : dict V :=
  match d with
  | [] => [(k, v)]
  | (k', v') :: r => if String.eqb k k' then (k, v) :: r else (k', v') :: dict_set k v r
  end.

Fixpoint dict_get {V} (k : string) (d : dict V) : option V :=
  match d with
  | [] => None
  | (k', v) :: r => if String.eqb k k' then Some v else dict_get k r
  end.

(** [str.strip()] *)
Definition py_strip (s : string) : string :=
  let drop := fix drop (l : list ascii) :=
    match l with c :: r => if py_isspace c then drop r else l | [] => [] end in
  string_of_list_ascii (rev (drop (rev (drop (chars s))))).

(** The inner loop of [py_strip]: leading whitespace removed. *)
Fixpoint drop_space (l : list ascii) : list ascii :=
  match l with c :: r => if py_isspace c then drop_space r else l | [] => [] end.

(* ------------------------------------------------------------------ *)
(** ** Temporary files and external tools *)

(** The file system part the analysis touches: the paths that exist,
    and a counter standing for [tempfile]'s fresh random names. *)
Record fs := mk_fs { files : list string; tmp_next : nat }.

(** [subprocess.run(..., capture_output=True, text=True)]'s result. *)
Record completed := mk_completed { returncode : Z; stdout : string; stderr : string }.

(** What running an external command does: it finishes (within 5 s or
    later), or cannot be started. *)
Inductive proc_outcome :=
| PDone (r : completed)
| PSlow (r : completed)
| PFail (e : pyexc).

(** [s[:-1]] when [s] ends in a newline, [s] otherwise. *)
Fixpoint drop_trailing_nl (s : string) : string :=
  match s with
  | EmptyString => EmptyString
  | String c EmptyString => if Nat.eqb (nat_of_ascii c) 10 then EmptyString else s
  | String c r => String c (drop_trailing_nl r)
  end.

Module Tools.
Section Tools.

(** [is_tool_available(name)] *)
Variable is_tool_available : string -> bool.
(** The behaviour of each external command line. *)
Variable proc : list string -> proc_outcome.
(** A command line run through the shell with stderr merged into stdout
    ([check_output(cmd, shell=True, stderr=STDOUT)] inside
    [subprocess.getoutput]): the text it prints, whatever its exit
    status, and its effect on the files; starting the shell may raise. *)
Variable shell : string -> ST fs string.
(** [os.name] *)
Variable os_name : string.

(** [tempfile.NamedTemporaryFile(delete=False, suffix=suffix, mode="w")]
    with the code written to it: the file exists afterwards. *)
Definition named_temp (suffix : string) : ST fs string :=
  fun s => let p := ("/tmp/tmp" ++ py_str_nat (tmp_next s) ++ suffix)%string in
           (Ok p, mk_fs (p :: files s) (S (tmp_next s))).

(** [os.path.exists(p)] *)
Definition path_exists (p : string) : ST fs bool :=
  fun s => (Ok (existsb (String.eqb p) (files s)), s).

(** [os.unlink(p)] *)
Definition unlink (p : string) : ST fs unit :=
  fun s => if existsb (String.eqb p) (files s)
           then (Ok tt, mk_fs (filter (fun q => negb (String.eqb p q)) (files s)) (tmp_next s))
           else (Raise (mk_exc "FileNotFoundError" ("No such file or directory: " ++ p)), s).

(** The file a compiler command names after [-o]. *)
Fixpoint output_arg (cmd : list string) : option string :=
  match cmd with
  | "-o" :: p :: _ => Some p
  | _ :: r => output_arg r
  | [] => None
  end.

(** [repr] of a list of plain strings. *)
Definition py_repr_list (l : list string) : string :=
  ("[" ++ join ", " (map (fun a => "'" ++ a ++ "'") l) ++ "]")%string.

(** [subprocess.run(cmd, capture_output=True, text=True[, timeout=t])]:
    a run past the timeout raises [TimeoutExpired]; a successful
    compiler run creates its [-o] output. *)
Definition run (cmd : list string) (timeout : option nat) : ST fs completed :=
  fun s =>
    let finish r := (Ok r, match returncode r, output_arg cmd with
                           | 0%Z, Some o => mk_fs (o :: files s) (tmp_next s)
                           | _, _ => s end) in
    match proc cmd with
    | PDone r => finish r
    | PSlow r => match timeout with
                 | Some t => (Raise (mk_exc "TimeoutExpired"
                               ("Command '" ++ py_repr_list cmd ++ "' timed out after "
                                ++ py_str_nat t ++ " seconds")), s)
                 | None => finish r
                 end
    | PFail e => (Raise e, s)
    end.

Definition or_default (out default : string) : string :=
  if String.eqb out "" then default else out.

(** [run_c_static_analysis] (lines 121-243). *)
Definition run_c_static_analysis (code : string) (is_cpp : bool) : ST fs (dict string) :=
  let suffix := if is_cpp then ".cpp" else ".c" in
  ce <-- st_lift (Conceptual.conceptual_report code) ;;;
  let results := dict_set "conceptual_errors" ce [] in
  (* 1. cppcheck; the except clause overwrites the same key *)
  cpp <-- (if is_tool_available "cppcheck" then
             st_try (tmp_path <-- named_temp suffix ;;;
                     result <-- run ["cppcheck"; "--enable=all"; "--quiet"; tmp_path] None ;;;
                     let output := or_default (stderr result) "No issues detected by cppcheck" in
                     _ <-- unlink tmp_path ;;;
                     st_ret output)
                    (fun e => st_ret ("Error running cppcheck: " ++ exc_msg e)%string)
           else st_ret "Tool not available (cppcheck is not installed or not in PATH)") ;;;
  let results := dict_set "cppcheck" cpp results in
  (* 2. clang static analyzer *)
  let clang := if is_cpp then "clang++" else "clang" in
  cla <-- (if is_tool_available clang then
             st_try (tmp_path <-- named_temp suffix ;;;
                     result <-- run [clang; "-Weverything"; "-fsyntax-only"; tmp_path] None ;;;
                     let output := or_default (stderr result)
                                     "No issues detected by clang static analyzer" in
                     _ <-- unlink tmp_path ;;;
                     st_ret output)
                    (fun e => st_ret ("Error running clang static analyzer: " ++ exc_msg e)%string)
           else st_ret "Tool not available (clang/clang++ is not installed or not in PATH)") ;;;
  let results := dict_set "clang_analyze" cla results in
  (* 3. valgrind *)
  let valgrind_available := is_tool_available "valgrind" in
  mem <-- (if valgrind_available && negb (String.eqb os_name "nt") then
             st_try (tmp_path <-- named_temp suffix ;;;
                     let bin := (tmp_path ++ ".out")%string in
                     compile_result <-- run [if is_cpp then "g++" else "gcc"; "-g"; "-o"; bin; tmp_path] None ;;;
                     output <-- (if Z.eqb (returncode compile_result) 0 then
                                   valgrind_result <-- run ["valgrind"; "--leak-check=full";
                                                            "--show-leak-kinds=all"; bin] (Some 5) ;;;
                                   st_ret (or_default (stderr valgrind_result) "No memory issues detected")
                                 else st_ret ("Compilation failed: " ++ stderr compile_result)%string) ;;;
                     _ <-- unlink tmp_path ;;;
                     ex <-- path_exists bin ;;;
                     _ <-- (if ex then unlink bin else st_ret tt) ;;;
                     st_ret output)
                    (fun e => st_ret ("Error running valgrind: " ++ exc_msg e)%string)
           else if String.eqb os_name "nt"
                then st_ret "Tool not available (valgrind does not work on Windows)"
                else st_ret "Tool not available (valgrind is not installed or not in PATH)") ;;;
  st_ret (dict_set "memory_analysis" mem results).

(** [subprocess.getoutput(cmd)]: the printed text without one trailing
    newline ([if data[-1:] == '\n': data = data[:-1]]). *)
Definition getoutput (cmd : string) : ST fs string :=
  o <-- shell cmd ;;; st_ret (drop_trailing_nl o).

(** [run_static_analysis] (lines 248-267). *)
Definition run_static_analysis (code : string) : ST fs (dict string) :=
  tmp_path <-- named_temp ".py" ;;;
  flake8 <-- st_try (o <-- getoutput ("flake8 " ++ tmp_path) ;;;
                     st_ret (if String.eqb o "" then "No issues" else py_strip o))
                    (fun e => st_ret (exc_msg e)) ;;;
  mypy <-- st_try (o <-- getoutput ("mypy " ++ tmp_path) ;;;
                   st_ret (if String.eqb o "" then "No issues" else py_strip o))
                  (fun e => st_ret (exc_msg e)) ;;;
  _ <-- unlink tmp_path ;;;
  st_ret (dict_set "mypy" mypy (dict_set "flake8" flake8 [])).

End Tools.
End Tools.

(* ------------------------------------------------------------------ *)
(** ** Execution in a container, and the fallback analysis *)

(** [str.upper()] on ASCII text. *)
Definition py_upper (s : string) : string :=
  string_of_list_ascii
    (map (fun a => let n := nat_of_ascii a in
                   if Nat.leb 97 n && Nat.leb n 122 then ascii_of_nat (n - 32) else a)
         (chars s)).

Module Docker.

(** [\w+\s*=\s*new\s+\w+.*;\s*.*\1\s*=\s*null]: the reference [\1]
    names a group the pattern does not have. *)
Definition java_null_after_new : regex :=
  Cat [Plus W_; Star S_; Lit "="; Star S_; Lit "new"; Plus S_; Plus W_; Star Dot;
       Lit ";"; Star S_; Star Dot; Backref 1; Star S_; Lit "="; Star S_; Lit "null"].

Definition warn (m : string) : string := ("⚠ Warning: " ++ m ++ nl)%string.

(** [except SyntaxError]: the class and its subclasses. *)
Definition is_syntax_error (e : pyexc) : bool :=
  existsb (String.eqb (exc_type e)) ["SyntaxError"; "IndentationError"; "TabError"].

Section Docker.
Local Open Scope string_scope.

(** [ast.parse(code)] *)
Variable ast_parse : string -> Exc unit.
(** The module-level flag set once at start-up. *)
Variable docker_available : bool.
(** [docker.from_env()] inside [run_in_docker]. *)
Variable docker_from_env : Exc unit.
(** Creating and removing the [TemporaryDirectory]. *)
Variable make_tmpdir : Exc unit.
Variable cleanup_tmpdir : Exc unit.
(** Writing the source to [Main.<ext>] in the directory. *)
Variable write_source : string -> string -> Exc unit.
(** [client_docker.containers.run(image=..., command=...)] *)
Variable containers_run : string -> string -> Exc unit.
(** [container.logs()] decoded as UTF-8; [Ok ""] for empty logs. *)
Variable container_logs : string -> string -> Exc string.

(** [run_code_fallback] (lines 341-397). *)
Definition run_code_fallback (code language : string) : Exc string :=
  result <-
    (if String.eqb language "python" then
       let result := "Python code analysis (without execution):" ++ nl in
       result <- (match ast_parse code with
                  | Ok _ => Ok (result ++ "✓ No syntax errors detected" ++ nl)
                  | Raise e => if is_syntax_error e
                               then Ok (result ++ "✗ Syntax error: " ++ exc_msg e ++ nl)
                               else Raise e
                  end)%string ;;
       let result := if contains code "open(" && negb (contains code "close(")
                        && negb (contains code "with open")
                     then (result ++ warn "File opened but not explicitly closed")%string
                     else result in
       let result := if contains code "import os" && contains code "os.system"
                     then (result ++ warn "Potentially unsafe system command execution")%string
                     else result in
       Ok result
     else if existsb (String.eqb language) ["c"; "cpp"] then
       let result := (py_upper language ++ " code analysis (without execution):" ++ nl)%string in
       b <- search_any Conceptual.null_deref code ;;
       let result := if b then (result ++ warn Conceptual.msg_null)%string else result in
       let result := if contains code "malloc" && negb (contains code "free")
                     then (result ++ warn Conceptual.msg_leak)%string else result in
       uv <- findall Conceptual.uninit [1; 2] code ;;
       let result := match uv with
                     | [] => result
                     | _ => (result ++ warn (Conceptual.msg_uninit
                                              ++ join ", " (map (fun v => nth 1 v "") uv)))%string
                     end in
       b <- (b1 <- search Conceptual.unsafe_copy code ;;
             if b1 then (b2 <- search Conceptual.bounded_copy code ;; Ok (negb b2))
             else Ok false) ;;
       let result := if b then (result ++ warn Conceptual.msg_overflow)%string else result in
       b <- search Conceptual.infinite_for code ;;
       Ok (if b then (result ++ warn Conceptual.msg_loop)%string else result)
     else if String.eqb language "java" then
       let result := "Java code analysis (without execution):" ++ nl in
       let result := if contains code ".equals(null)"
                     then (result ++ warn "Potential NullPointerException: calling .equals() on null")%string
                     else result in
       b <- (if contains code "new" && contains code "= null"
             then search java_null_after_new code else Ok false) ;;
       Ok (if b then (result ++ warn "Object created and then set to null - possible memory leak")%string
           else result)
     else Ok ("Analysis for " ++ language ++ " is not supported in fallback mode")%string) ;;
  Ok (if String.eqb result "" then "No issues detected by static analysis" else result).

(** [ext_map.get(language, 'txt')] *)
Definition ext_of (language : string) : string :=
  if String.eqb language "python" then "py"
  else if String.eqb language "java" then "java"
  else if String.eqb language "c" then "c"
  else if String.eqb language "cpp" then "cpp"
  else "txt".

(** The image and the command line of each supported language. *)
Definition image_and_cmd (language filename : string) : option (string * string) :=
  if String.eqb language "python" then Some ("python:3.11-slim", "python " ++ filename)%string
  else if String.eqb language "java" then
    Some ("openjdk:20-slim", "javac " ++ filename ++ " && java Main")%string
  else if String.eqb language "c" then
    Some ("gcc:latest", "gcc " ++ filename ++ " -o main && ./main")%string
  else if String.eqb language "cpp" then
    Some ("gcc:latest", "g++ " ++ filename ++ " -o main && ./main")%string
  else None.

(** [with tempfile.TemporaryDirectory() as tmpdir: body]: the directory
    is removed on both exits, and an error while removing it wins. *)
Definition with_tmpdir (body : Exc string) : Exc string :=
  _ <- make_tmpdir ;;
  match body with
  | Ok r => _ <- cleanup_tmpdir ;; Ok r
  | Raise e => _ <- cleanup_tmpdir ;; Raise e
  end.

(** The inner [try] (lines 299-331): errors of the container run or of
    its logs become the payload. *)
Definition run_container (image cmd : string) : Exc string :=
  match (_ <- containers_run image cmd ;;
         logs <- container_logs image cmd ;;
         Ok (if String.eqb logs "" then "No output" else logs)) with
  | Ok r => Ok r
  | Raise e => Ok ("Runtime error: " ++ exc_msg e)%string
  end.

(** [run_in_docker] (lines 283-336). *)
Definition run_in_docker (code language : string) : Exc string :=
  if negb docker_available then run_code_fallback code language else
  match (_ <- docker_from_env ;;
         with_tmpdir
           (let filename := ("Main." ++ ext_of language)%string in
            _ <- write_source filename code ;;
            match image_and_cmd language filename with
            | None => Ok "Unsupported language"
            | Some (image, cmd) => run_container image cmd
            end)) with
  | Ok r => Ok r
  | Raise _ => run_code_fallback code language
  end.

End Docker.
End Docker.

(* ------------------------------------------------------------------ *)
(** ** The HTTP endpoints *)

(** [str.lower()] on ASCII text. *)
Definition py_lower (s : string) : string :=
  string_of_list_ascii
    (map (fun a => let n := nat_of_ascii a in
                   if Nat.leb 65 n && Nat.leb n 90 then ascii_of_nat (n + 32) else a)
         (chars s)).

(** [os.path.splitext(name)[1]]: from the last dot, unless only dots
    precede it. *)
Definition splitext_ext (name : string) : string :=
  let fix split (r : list ascii) (ext_rev : list ascii) : option (list ascii * list ascii) :=
    match r with
    | [] => None
    | c :: r' => if Ascii.eqb c "."%char then Some (ext_rev, r') else split r' (c :: ext_rev)
    end in
  match split (rev (chars name)) [] with
  | Some (ext, before) =>
      if existsb (fun c => negb (Ascii.eqb c "."%char)) before
      then string_of_list_ascii ("."%char :: ext) else ""
  | None => ""
  end.

Definition SUPPORTED_EXTENSIONS : list (string * string) :=
  [(".py", "python"); (".java", "java"); (".c", "c"); (".cpp", "cpp")].

(** [raise HTTPException(status_code=..., detail=...)]; its [str] is
    ["<status>: <detail>"]. *)
Definition http_exception (status : nat) (detail : string) : pyexc :=
  mk_exc "HTTPException" (py_str_nat status ++ ": " ++ detail)%string.

Record analysis := mk_analysis {
  a_language : string;
  a_issues : dict string;
  a_runtime : string;
  a_suggestions : string }.

(** A value of the [results] mapping of [analyze_repo]. *)
Inductive entry :=
| EResult (a : analysis)
| EError (message : string).

(** One file as [os.walk] lists it: the directory relative to the clone
    and the file name. *)
Record walk_file := mk_walk_file { root_rel : string; fname : string }.

(** [os.path.relpath(os.path.join(root, file), tmpdir)] *)
Definition rel_path (w : walk_file) : string :=
  if String.eqb (root_rel w) "" then fname w else (root_rel w ++ "/" ++ fname w)%string.

Definition is_supported (w : walk_file) : bool :=
  existsb (fun kv => String.eqb (fst kv) (py_lower (splitext_ext (fname w)))) SUPPORTED_EXTENSIONS.

(** Stages of the single-submission pipeline, in the order they run. *)
Inductive stage := SDetect | SStatic | SExec | SSynth.

Module Endpoints.
Section Endpoints.

(** [client.text_generation(prompt, max_new_tokens=10)] on the detection
    prompt built from the code. *)
Variable llm_detect : string -> Exc string.
(** [run_static_analysis], [run_c_static_analysis(code, is_cpp)],
    [run_in_docker] and [ai_fix_agent] as the endpoints see them. *)
Variable static_py : string -> Exc (dict string).
Variable static_c : string -> bool -> Exc (dict string).
Variable exec : string -> string -> Exc string.
Variable synth : string -> dict string -> string -> string -> Exc string.
(** Reading a file of the clone, by its relative path. *)
Variable read_file : string -> Exc string.

(** [detect_language_with_llm] (lines 85-103). *)
Definition detect_language_with_llm (code : string) : Exc string :=
  match llm_detect code with
  | Ok response =>
      let language := py_lower (py_strip response) in
      Ok (if existsb (String.eqb language) ["python"; "java"; "c"; "cpp"]
          then language else "unknown")
  | Raise _ => Detect.detect_language_with_regex code
  end.

(** The issues of each language (lines 544-548 and 607-611). *)
Definition issues_for (code language : string) : Exc (dict string) :=
  if String.eqb language "python" then static_py code
  else if existsb (String.eqb language) ["c"; "cpp"] then static_c code (String.eqb language "cpp")
  else Ok [].

(** Running a stage records it in the trace. *)
Definition stage_call {A} (st : stage) (m : Exc A) : ST (list stage) A :=
  fun tr => (m, tr ++ [st]).

Definition st_raise {S A} (e : pyexc) : ST S A := fun s => (Raise e, s).

(** [analyze] (lines 531-559); [code] is [data.get("code", "")]. *)
Definition analyze (code : string) : ST (list stage) analysis :=
  if strip_is_empty code then st_raise (http_exception 400 "No code provided") else
  language <-- stage_call SDetect (detect_language_with_llm code) ;;;
  if String.eqb language "unknown"
  then st_raise (http_exception 400 "Unsupported or undetectable language") else
  issues <-- stage_call SStatic (issues_for code language) ;;;
  runtime_logs <-- stage_call SExec (exec code language) ;;;
  ai_suggestions <-- stage_call SSynth (synth code issues runtime_logs language) ;;;
  st_ret (mk_analysis language issues runtime_logs ai_suggestions).

(** The body of the per-file [try] (lines 597-618): [None] for
    [continue]. *)
Definition file_body (path : string) : Exc (option analysis) :=
  code <- read_file path ;;
  language <- detect_language_with_llm code ;;
  if String.eqb language "unknown" then Ok None else
  issues <- issues_for code language ;;
  runtime_logs <- exec code language ;;
  suggestions <- synth code issues runtime_logs language ;;
  Ok (Some (mk_analysis language issues runtime_logs suggestions)).

(** One iteration of the walk (lines 593-624). *)
Definition repo_step (results : dict entry) (w : walk_file) : dict entry :=
  if is_supported w then
    match file_body (rel_path w) with
    | Ok None => results
    | Ok (Some a) => dict_set (rel_path w) (EResult a) results
    | Raise e => dict_set (rel_path w) (EError (exc_msg e)) results
    end
  else results.

(** The [results] mapping after the walk over the clone. *)
Definition repo_results (walk : list walk_file) : dict entry :=
  fold_left repo_step walk [].

End Endpoints.
End Endpoints.

(* ------------------------------------------------------------------ *)
(** ** The suggestion agent *)

Module Agent.

Definition is_c_lang (language : string) : bool := existsb (String.eqb language) ["c"; "cpp"].

Definition fallback_header : string :=
  ("AUTOMATED CODE ANALYSIS (AI service unavailable)" ++ nl ++ nl)%string.

Definition improvements : string :=
  ("SUGGESTED IMPROVEMENTS:" ++ nl ++ "- Fix any identified conceptual errors" ++ nl
   ++ "- Ensure proper error handling" ++ nl ++ "- Follow language best practices" ++ nl)%string.

Definition c_improvements : string :=
  ("- Check for memory leaks" ++ nl ++ "- Validate pointer usage" ++ nl
   ++ "- Consider using safer string functions" ++ nl)%string.

(** [key in issues and issues[key] != none_text] *)
Definition reported (issues : dict string) (key none_text : string) : option string :=
  match dict_get key issues with
  | Some v => if String.eqb v none_text then None else Some v
  | None => None
  end.

(** The section [title] with [body], as the handler appends it. *)
Definition section (title body : string) : string :=
  (title ++ nl ++ body ++ nl ++ nl)%string.

(** [fallback_response] of the [except] clause of [ai_fix_agent]
    (lines 481-522). *)
Definition fallback_response (issues : dict string) (runtime language : string) : string :=
  let r := fallback_header in
  let r := match (if is_c_lang language then reported issues "conceptual_errors" Conceptual.msg_none
                  else None) with
           | Some ce => (r ++ section "CONCEPTUAL ISSUES:" ce)%string
           | None => r
           end in
  let r := if negb (String.eqb runtime "") && negb (String.eqb runtime "No output")
              && negb (contains runtime "successfully")
           then (r ++ section "RUNTIME ISSUES:" runtime)%string else r in
  let r := if String.eqb language "python" then
             let r := match reported issues "flake8" "No issues" with
                      | Some v => (r ++ section "STATIC ANALYSIS (flake8):" v)%string
                      | None => r end in
             match reported issues "mypy" "No issues" with
             | Some v => (r ++ section "TYPE CHECKING (mypy):" v)%string
             | None => r end
           else r in
  let r := (r ++ improvements)%string in
  if is_c_lang language then (r ++ c_improvements)%string else r.

Section Agent.

(** [client.text_generation(prompt_template, max_new_tokens=1024)] on the
    prompt built from the code, the issues, the runtime output and the
    language. *)
Variable llm_fix : string -> dict string -> string -> string -> Exc string.

(** [ai_fix_agent] (lines 400-522). *)
Definition ai_fix_agent (code : string) (issues : dict string) (runtime language : string)
    : Exc string :=
  match llm_fix code issues runtime language with
  | Ok response => Ok (py_strip response)
  | Raise _ => Ok (fallback_response issues runtime language)
  end.

End Agent.
End Agent.

(* ------------------------------------------------------------------ *)
(** ** The repository endpoint *)

(** [s.startswith(p)] and [s.endswith(p)] *)
Definition py_startswith (s p : string) : bool := prefixb (chars p) (chars s).
Definition py_endswith (s p : string) : bool := prefixb (rev (chars p)) (rev (chars s)).

Module Repo.

(** The URL handling of [analyze_repo] (lines 565-578); [repo_url] is
    [data.get("repo_url", "")]. *)
Definition normalize_repo_url (repo_url : string) : Exc string :=
  let repo_url := py_strip repo_url in
  if String.eqb repo_url "" then Raise (http_exception 400 "No repository URL provided")
  else if negb (py_endswith repo_url ".git") && negb (py_startswith repo_url "http") then
    if contains repo_url "/" then Ok ("https://github.com/" ++ repo_url ++ ".git")%string
    else Raise (http_exception 400 "Invalid repository URL format")
  else if negb (py_endswith repo_url ".git") && py_startswith repo_url "http" then
    Ok (repo_url ++ ".git")%string
  else Ok repo_url.

(** The outer [except Exception as e] of [analyze_repo] (lines 627-632);
    [str(e).lower()] read on ASCII text. *)
Definition outer_handler (e : pyexc) : pyexc :=
  if contains (py_lower (exc_msg e)) "docker"
  then http_exception 500 ("Docker error: " ++ exc_msg e
                           ++ ". Make sure Docker is installed and running.")%string
  else http_exception 500 ("Unexpected error: " ++ exc_msg e)%string.

Section Repo.

Variable llm_detect : string -> Exc string.
Variable static_py : string -> Exc (dict string).
Variable static_c : string -> bool -> Exc (dict string).
Variable exec : string -> string -> Exc string.
Variable synth : string -> dict string -> string -> string -> Exc string.
Variable read_file : string -> Exc string.
(** [Repo.clone_from(repo_url, tmpdir)] *)
Variable clone : string -> Exc unit.
(** Creating and removing the [TemporaryDirectory]. *)
Variable make_tmpdir : Exc unit.
Variable cleanup_tmpdir : Exc unit.
(** The files [os.walk(tmpdir)] lists after the clone. *)
Variable walk : list walk_file.

(** [analyze_repo] (lines 561-632). *)
Definition analyze_repo (repo_url : string) : Exc (dict entry) :=
  match (url <- normalize_repo_url repo_url ;;
         _ <- make_tmpdir ;;
         let body :=
           match clone url with
           | Ok _ => Ok (Endpoints.repo_results llm_detect static_py static_c exec synth
                           read_file walk)
           | Raise e => Raise (http_exception 400 ("Failed to clone repo: " ++ exc_msg e)%string)
           end in
         match body with
         | Ok r => _ <- cleanup_tmpdir ;; Ok r
         | Raise e => _ <- cleanup_tmpdir ;; Raise e
         end) with
  | Ok r => Ok r
  | Raise e => Raise (outer_handler e)
  end.

End Repo.
End Repo.

(* ================================================================== *)
(** * Proofs *)

(* ------------------------------------------------------------------ *)
(** ** Facts about the matcher *)

Definition valid (r : regex) : bool :=
  match valid_from [] r with Some _ => true | None => false end.

Lemma search_valid (r : regex) (s : string) :
  valid r = true -> search r s = Ok (search_l r (chars s)).
Proof.
  unfold valid, search. destruct (valid_from [] r); congruence.
Qed.

Lemma search_any_valid (ps : list regex) (s : string) :
  forallb valid ps = true -> search_any ps s = Ok (existsb (fun r => search_l r (chars s)) ps).
Proof.
  induction ps as [|p ps IH]; simpl; [reflexivity|].
  intros H. apply andb_prop in H as [Hp Hps].
  rewrite (search_valid p s Hp). destruct (search_l p (chars s)); simpl; auto.
Qed.

Lemma detect_markers_valid :
  forallb valid (Detect.python_markers ++ Detect.java_markers
                 ++ Detect.cpp_markers ++ Detect.c_markers) = true.
Proof. vm_compute. reflexivity. Qed.

Lemma forallb_app_l {A} (f : A -> bool) (l1 l2 : list A) :
  forallb f (l1 ++ l2) = true -> forallb f l1 = true /\ forallb f l2 = true.
Proof. rewrite forallb_app. apply andb_prop. Qed.


(** C3: the regex fallback detector tests the python markers first, then
    the java, C++ and C markers, and a text matching none of them is
    classified as python; it never raises and never answers unknown. *)
Theorem detect_language_with_regex_order (code : string) :
  let py := existsb (fun r => search_l r (chars code)) Detect.python_markers in
  let jv := existsb (fun r => search_l r (chars code)) Detect.java_markers in
  let cp := existsb (fun r => search_l r (chars code)) Detect.cpp_markers in
  let c  := existsb (fun r => search_l r (chars code)) Detect.c_markers in
  Detect.detect_language_with_regex code =
    Ok (if py then "python" else if jv then "java" else if cp then "cpp"
        else if c then "c" else "python")
  /\ (py = false -> jv = false -> cp = false -> c = false ->
      Detect.detect_language_with_regex code = Ok "python")
  /\ Detect.detect_language_with_regex code <> Ok "unknown".
Proof.
  pose proof detect_markers_valid as H.
  apply forallb_app_l in H as [Hpy H]. apply forallb_app_l in H as [Hjv H].
  apply forallb_app_l in H as [Hcp Hc].
  cbv zeta. set (m := fun r : regex => search_l r (chars code)).
  assert (E : Detect.detect_language_with_regex code =
    Ok (if existsb m Detect.python_markers then "python"
        else if existsb m Detect.java_markers then "java"
        else if existsb m Detect.cpp_markers then "cpp"
        else if existsb m Detect.c_markers then "c"
        else "python")).
  { unfold Detect.detect_language_with_regex.
    rewrite (search_any_valid _ code Hpy), (search_any_valid _ code Hjv),
            (search_any_valid _ code Hcp), (search_any_valid _ code Hc).
    fold m. cbn [exc_bind]. destruct (existsb m Detect.python_markers) eqn:?; [reflexivity|].
    cbn [exc_bind]. destruct (existsb m Detect.java_markers) eqn:?; [reflexivity|].
    cbn [exc_bind]. destruct (existsb m Detect.cpp_markers) eqn:?; [reflexivity|].
    cbn [exc_bind].
    destruct (existsb m Detect.c_markers) eqn:?; reflexivity. }
  split; [exact E|]. split.
  - intros H1 H2 H3 H4. rewrite E, H1, H2, H3, H4. reflexivity.
  - rewrite E.
    generalize (existsb m Detect.python_markers) (existsb m Detect.java_markers)
               (existsb m Detect.cpp_markers) (existsb m Detect.c_markers).
    intros [] [] [] []; discriminate.
Qed.

(** Witness: a prose text matches no marker and is classified python;
    text with both python and java markers is classified python. *)
Lemma detect_language_with_regex_order_witness :
  Detect.detect_language_with_regex "hello world" = Ok "python"
  /\ Detect.detect_language_with_regex "import java.util.*; public class A {}" = Ok "python".
Proof.
  split.
  - apply (proj1 (proj2 (detect_language_with_regex_order "hello world")));
      vm_compute; reflexivity.
  - pose proof (proj1 (detect_language_with_regex_order
                         "import java.util.*; public class A {}")) as E.
    rewrite E. vm_compute. reflexivity.
Defined.


(* ------------------------------------------------------------------ *)
(** ** Soundness of the matcher against a relational reading

    [mrel r s s']: [r] can consume the front of [s] and leave [s'].
    Back-references and lookaheads are read loosely (any text, and
    always), which is enough for the soundness direction. *)

Inductive mrel : regex -> list ascii -> list ascii -> Prop :=
| mrel_eps s : mrel Eps s s
| mrel_chr a s : mrel (Chr a) (a :: s) s
| mrel_cls p b s : p b = true -> mrel (Cls p) (b :: s) s
| mrel_seq r1 r2 s s1 s2 : mrel r1 s s1 -> mrel r2 s1 s2 -> mrel (Seq r1 r2) s s2
| mrel_alt1 r1 r2 s s' : mrel r1 s s' -> mrel (Alt r1 r2) s s'
| mrel_alt2 r1 r2 s s' : mrel r2 s s' -> mrel (Alt r1 r2) s s'
| mrel_star0 r s : mrel (Star r) s s
| mrel_star1 r s s1 s2 : mrel r s s1 -> mrel (Star r) s1 s2 -> mrel (Star r) s s2
| mrel_group n r s s' : mrel r s s' -> mrel (Group n r) s s'
| mrel_backref n t s : mrel (Backref n) (t ++ s) s
| mrel_neglook r s : mrel (NegLook r) s s.

Lemma orelse_some {A} (a b : option A) x :
  orelse a b = Some x -> a = Some x \/ b = Some x.
Proof. destruct a; simpl; auto. Qed.

Lemma orelse_r {A} (a b : option A) : b <> None -> orelse a b <> None.
Proof. destruct a; simpl; congruence. Qed.

Lemma prefixb_app (p s : list ascii) :
  prefixb p s = true -> s = p ++ skipn (length p) s.
Proof.
  revert s; induction p as [|a p IH]; intros [|b s] H; simpl in *; try easy.
  apply andb_prop in H as [H1 H2]. apply Ascii.eqb_eq in H1. subst.
  f_equal. now apply IH.
Qed.

Lemma mt_sound {A} (f : nat) : forall r s c (k : list ascii -> caps -> option A) x,
  mt f r s c k = Some x -> exists s' c', mrel r s s' /\ k s' c' = Some x.
Proof.
  induction f as [|f IH]; intros r s c k x H; [discriminate|].
  destruct r; simpl in H.
  - exists s, c. split; [constructor|exact H].
  - destruct s as [|b s]; [discriminate|].
    destruct (Ascii.eqb c0 b) eqn:E; [|discriminate].
    apply Ascii.eqb_eq in E; subst. exists s, c. split; [constructor|exact H].
  - destruct s as [|b s]; [discriminate|].
    destruct (p b) eqn:E; [|discriminate].
    exists s, c. split; [now constructor|exact H].
  - apply IH in H as (s1 & c1 & M1 & H1). apply IH in H1 as (s2 & c2 & M2 & H2).
    exists s2, c2. split; [econstructor; eauto|exact H2].
  - apply orelse_some in H as [H|H]; apply IH in H as (s1 & c1 & M & K);
      exists s1, c1; split; auto; [apply mrel_alt1|apply mrel_alt2]; exact M.
  - apply orelse_some in H as [H|H].
    + apply IH in H as (s1 & c1 & M1 & H1).
      destruct (Nat.ltb (length s1) (length s)); [|discriminate].
      apply IH in H1 as (s2 & c2 & M2 & H2).
      exists s2, c2. split; [econstructor; eauto|exact H2].
    + exists s, c. split; [constructor|exact H].
  - apply IH in H as (s1 & c1 & M & K). eexists s1, _. split; [constructor; exact M|exact K].
  - destruct (cap_lookup n c) as [t|]; [|discriminate].
    destruct (prefixb t s) eqn:P; [|discriminate].
    exists (skipn (length t) s), c. split; [|exact H].
    rewrite (prefixb_app t s P) at 1. constructor.
  - destruct (mt f r s c (fun _ _ => Some tt)); [discriminate|].
    exists s, c. split; [constructor|exact H].
Qed.

Lemma mrel_suffix r s s' : mrel r s s' -> exists pre, s = pre ++ s'.
Proof.
  induction 1; try (exists []; reflexivity).
  - exists [a]; reflexivity.
  - exists [b]; reflexivity.
  - destruct IHmrel1 as [p1 ->], IHmrel2 as [p2 ->]. exists (p1 ++ p2). now rewrite app_assoc.
  - exact IHmrel.
  - exact IHmrel.
  - destruct IHmrel1 as [p1 ->], IHmrel2 as [p2 ->]. exists (p1 ++ p2). now rewrite app_assoc.
  - exact IHmrel.
  - exists t; reflexivity.
Qed.

Lemma mrel_star_cls p s s' :
  mrel (Star (Cls p)) s s' -> exists ws, s = ws ++ s' /\ forallb p ws = true.
Proof.
  intros H. remember (Star (Cls p)) as r eqn:Er. revert Er.
  induction H; intros Er; try discriminate.
  - exists []; split; reflexivity.
  - injection Er as ->. inversion H; subst.
    destruct (IHmrel2 eq_refl) as (ws & -> & Hws).
    exists (b :: ws). simpl. rewrite H2, Hws. split; reflexivity.
Qed.

Lemma search_l_sound r s :
  search_l r s = true -> exists pre t rest, s = pre ++ t /\ mrel r t rest.
Proof.
  induction s as [|a s IH]; simpl; unfold match_at.
  - destruct (mt _ r [] [] _) as [[s' c]|] eqn:E; [|discriminate].
    intros _. apply mt_sound in E as (s1 & c1 & M & _). now exists [], [], s1.
  - destruct (mt _ r (a :: s) [] _) as [[s' c]|] eqn:E.
    + intros _. apply mt_sound in E as (s1 & c1 & M & _). now exists [], (a :: s), s1.
    + intros H. destruct (IH H) as (pre & t & rest & -> & M).
      now exists (a :: pre), t, rest.
Qed.

Lemma search_l_complete r pre t :
  match_at r t <> None -> search_l r (pre ++ t) = true.
Proof.
  intros H. induction pre as [|a pre IH]; simpl.
  - destruct t as [|b t]; simpl; destruct (match_at r _); congruence.
  - destruct (match_at r (a :: pre ++ t)); [reflexivity|exact IH].
Qed.

Lemma contains_l_sound sub s :
  contains_l sub s = true -> exists pre t, s = pre ++ t /\ prefixb sub t = true.
Proof.
  induction s as [|a s IH]; simpl; intros H.
  - rewrite orb_false_r in H. now exists [], [].
  - apply orb_true_iff in H as [H|H].
    + now exists [], (a :: s).
    + destruct (IH H) as (pre & t & -> & P). now exists (a :: pre), t.
Qed.

Lemma contains_l_complete sub pre t :
  prefixb sub t = true -> contains_l sub (pre ++ t) = true.
Proof.
  intros H. induction pre as [|a pre IH]; simpl.
  - destruct t; simpl; rewrite H; reflexivity.
  - rewrite IH, orb_true_r. reflexivity.
Qed.

Lemma mrel_seq_inv r1 r2 s s2 :
  mrel (Seq r1 r2) s s2 -> exists s1, mrel r1 s s1 /\ mrel r2 s1 s2.
Proof. intros H; inversion H; subst; eauto. Qed.

Lemma mrel_chr_inv a s s' : mrel (Chr a) s s' -> s = a :: s'.
Proof. intros H; inversion H; subst; reflexivity. Qed.

(** Whatever the loop pattern matches holds a [;], optional whitespace and
    a second [;]. *)
Lemma infinite_for_mrel t rest :
  mrel Conceptual.infinite_for t rest ->
  exists pre ws post, t = pre ++ ";"%char :: ws ++ ";"%char :: post
                      /\ forallb py_isspace ws = true.
Proof.
  unfold Conceptual.infinite_for. cbn [Cat]. intros H.
  apply mrel_seq_inv in H as (s1 & H1 & H).
  apply mrel_seq_inv in H as (s2 & H2 & H).
  apply mrel_seq_inv in H as (s3 & H3 & H).
  apply mrel_seq_inv in H as (s4 & H4 & H).
  apply mrel_seq_inv in H as (s5 & H5 & H).
  apply mrel_seq_inv in H as (s6 & H6 & H).
  apply mrel_seq_inv in H as (s7 & H7 & H8).
  apply mrel_suffix in H1 as [p1 ->]. apply mrel_suffix in H2 as [p2 ->].
  apply mrel_suffix in H3 as [p3 ->]. apply mrel_suffix in H4 as [p4 ->].
  apply mrel_suffix in H5 as [p5 ->].
  apply mrel_chr_inv in H6 as ->. apply mrel_chr_inv in H8 as ->.
  apply mrel_star_cls in H7 as (ws & -> & Hws).
  exists (p1 ++ p2 ++ p3 ++ p4 ++ p5), ws, rest. split; [|exact Hws].
  now rewrite !app_assoc.
Qed.

Lemma infinite_for_at_front rest :
  match_at Conceptual.infinite_for
    ("f"%char :: "o"%char :: "r"%char :: "("%char :: ";"%char :: ";"%char :: rest) <> None.
Proof.
  unfold match_at.
  assert (Hf : exists m, fuel_for Conceptual.infinite_for
      ("f"%char :: "o"%char :: "r"%char :: "("%char :: ";"%char :: ";"%char :: rest)
      = 40 + m).
  { exists (size Conceptual.infinite_for * (length rest + 8) - 40).
    unfold fuel_for. simpl. lia. }
  destruct Hf as [m ->].
  simpl. repeat (apply orelse_r; simpl). discriminate.
Qed.

(* ------------------------------------------------------------------ *)
(** ** Validity of the scan's patterns and the shape of its findings *)

Lemma valid_from_Lit_l c l : valid_from c (Lit_l l) = Some c.
Proof.
  induction l as [|a [|b l] IH]; simpl; try reflexivity.
  simpl in IH. exact IH.
Qed.

Lemma valid_array_use name : valid (Conceptual.array_use name) = true.
Proof. unfold valid, Conceptual.array_use, Lit. simpl. rewrite valid_from_Lit_l. reflexivity. Qed.

Lemma valid_array_index name : valid (Conceptual.array_index name) = true.
Proof. unfold valid, Conceptual.array_index, Lit. simpl. rewrite valid_from_Lit_l. reflexivity. Qed.

Lemma findall_valid r gs s :
  valid r = true -> findall r gs s = Ok (findall_l r gs (S (length (chars s))) (chars s)).
Proof. unfold valid, findall. destruct (valid_from [] r); congruence. Qed.

Lemma array_checks_shape code decls acc :
  exists O, Conceptual.array_checks code decls acc = Ok (acc ++ O)
            /\ forall m, In m O -> exists n i s, m = Conceptual.msg_oob n i s.
Proof.
  revert acc. induction decls as [|d ds IH]; intros acc.
  - exists []. rewrite app_nil_r. split; [reflexivity|intros m []].
  - unfold Conceptual.array_checks; fold Conceptual.array_checks.
    rewrite (search_valid _ _ (valid_array_use _)). cbn [exc_bind].
    destruct (search_l _ _).
    + rewrite (findall_valid _ _ _ (valid_array_index _)). cbn [exc_bind].
      destruct (IH (acc ++ Conceptual.oob_msgs (nth 0 d "") (nth 1 d "")
                 (map (fun g => nth 0 g "") (findall_l (Conceptual.array_index (nth 0 d ""))
                    [1] (S (length (chars code))) (chars code))))) as (O & E & HO).
      cbn [exc_bind]. rewrite E. eexists. rewrite <- app_assoc. split; [reflexivity|].
      intros m Hm. apply in_app_or in Hm as [Hm|Hm]; [|now apply HO].
      unfold Conceptual.oob_msgs in Hm. apply in_flat_map in Hm as (idx & _ & Hm).
      destruct (isdigit idx && _); [|destruct Hm].
      destruct Hm as [<-|[]]. eauto.
    + destruct (IH acc) as (O & E & HO). cbn [exc_bind]. rewrite E. eauto.
Qed.

Lemma conceptual_errors_shape code :
  let cs := chars code in
  exists U O,
    Conceptual.conceptual_errors code =
      Ok ((if existsb (fun r => search_l r cs) Conceptual.null_deref
           then [Conceptual.msg_null] else [])
          ++ (if contains code "malloc" && negb (contains code "free")
              then [Conceptual.msg_leak] else [])
          ++ U
          ++ (if search_l Conceptual.unsafe_copy cs && negb (search_l Conceptual.bounded_copy cs)
              then [Conceptual.msg_overflow] else [])
          ++ (if search_l Conceptual.infinite_for cs then [Conceptual.msg_loop] else [])
          ++ (if existsb (fun r => search_l r cs) Conceptual.dangling
              then [Conceptual.msg_dangling] else [])
          ++ O)
    /\ (forall m, In m U -> exists x, m = (Conceptual.msg_uninit ++ x)%string)
    /\ (forall m, In m O -> exists n i s, m = Conceptual.msg_oob n i s).
Proof.
  cbv zeta.
  unfold Conceptual.conceptual_errors.
  rewrite (search_any_valid Conceptual.null_deref code) by (vm_compute; reflexivity).
  cbn [exc_bind Conceptual.append_if].
  rewrite (findall_valid Conceptual.uninit _ _) by (vm_compute; reflexivity). cbn [exc_bind].
  rewrite (search_valid Conceptual.unsafe_copy _) by (vm_compute; reflexivity). cbn [exc_bind].
  rewrite (search_valid Conceptual.bounded_copy _) by (vm_compute; reflexivity).
  rewrite (search_valid Conceptual.infinite_for _) by (vm_compute; reflexivity).
  rewrite (search_any_valid Conceptual.dangling code) by (vm_compute; reflexivity).
  rewrite (findall_valid Conceptual.array_decl _ _) by (vm_compute; reflexivity).
  set (cs := chars code).
  set (decls := findall_l Conceptual.array_decl _ _ _).
  destruct (findall_l Conceptual.uninit _ _ _) as [|u uv];
  [exists [] | exists [(Conceptual.msg_uninit ++ join ", " (map (fun v => nth 1 v "") (u :: uv)))%string]];
  destruct (existsb (fun r => search_l r cs) Conceptual.null_deref);
  destruct (contains code "malloc" && negb (contains code "free"));
  destruct (search_l Conceptual.unsafe_copy cs);
  destruct (search_l Conceptual.bounded_copy cs);
  destruct (search_l Conceptual.infinite_for cs);
  destruct (existsb (fun r => search_l r cs) Conceptual.dangling);
  cbn [exc_bind negb andb Conceptual.append_if app];
  match goal with |- context [Conceptual.array_checks code decls ?acc] =>
    destruct (array_checks_shape code decls acc) as (O & -> & HO) end;
  exists O; (split; [reflexivity|split; [|exact HO]]);
  intros m Hm; cbn [In] in Hm; try contradiction; destruct Hm as [<-|[]];
  eexists; reflexivity.
Qed.

Lemma msg_uninit_not_leak x : (Conceptual.msg_uninit ++ x)%string <> Conceptual.msg_leak.
Proof. unfold Conceptual.msg_uninit, Conceptual.msg_leak; simpl; discriminate. Qed.

Lemma msg_uninit_not_loop x : (Conceptual.msg_uninit ++ x)%string <> Conceptual.msg_loop.
Proof. unfold Conceptual.msg_uninit, Conceptual.msg_loop; simpl; discriminate. Qed.

Lemma msg_oob_not_leak n i s : Conceptual.msg_oob n i s <> Conceptual.msg_leak.
Proof. unfold Conceptual.msg_oob, Conceptual.msg_leak; simpl; discriminate. Qed.

Lemma msg_oob_not_loop n i s : Conceptual.msg_oob n i s <> Conceptual.msg_loop.
Proof. unfold Conceptual.msg_oob, Conceptual.msg_loop; simpl; discriminate. Qed.

(** C6: the conceptual scan reports the memory-leak finding exactly when
    the text contains [malloc] and does not contain [free]; in particular
    a malloc with no free is reported, and adding a free removes it. *)
Theorem conceptual_scan_memory_leak (code : string) :
  exists errs,
    Conceptual.conceptual_errors code = Ok errs
    /\ Conceptual.conceptual_report code
       = Ok (match errs with [] => Conceptual.msg_none | _ => join nl errs end)
    /\ (In Conceptual.msg_leak errs <->
        contains code "malloc" = true /\ contains code "free" = false).
Proof.
  destruct (conceptual_errors_shape code) as (U & O & E & HU & HO). cbv zeta in E.
  eexists. split; [exact E|]. split.
  { unfold Conceptual.conceptual_report. rewrite E. reflexivity. }
  split.
  - intros H. repeat (apply in_app_or in H as [H|H]).
    + destruct (existsb _ Conceptual.null_deref); [destruct H as [H|[]]; discriminate H|destruct H].
    + destruct (contains code "malloc") eqn:M, (contains code "free") eqn:F;
        simpl in H; try destruct H; auto.
    + destruct (HU _ H) as [x Hx]. exfalso. exact (msg_uninit_not_leak x (eq_sym Hx)).
    + destruct (search_l Conceptual.unsafe_copy _ && _);
        [destruct H as [H|[]]; discriminate H|destruct H].
    + destruct (search_l Conceptual.infinite_for _); [destruct H as [H|[]]; discriminate H|destruct H].
    + destruct (existsb _ Conceptual.dangling); [destruct H as [H|[]]; discriminate H|destruct H].
    + destruct (HO _ H) as (n & i & s & Hx). exfalso. exact (msg_oob_not_leak n i s (eq_sym Hx)).
  - intros [M F]. rewrite M, F. simpl.
    apply in_or_app. right. left. reflexivity.
Qed.

Lemma orelse_l {A} (a b : option A) : a <> None -> orelse a b <> None.
Proof. destruct a; simpl; congruence. Qed.

Lemma mt_star_eq {A} f r s c (k : list ascii -> caps -> option A) :
  mt (S f) (Star r) s c k =
  orelse (mt f r s c (fun s' c' =>
             if Nat.ltb (length s') (length s) then mt f (Star r) s' c' k else None))
         (k s c).
Proof. reflexivity. Qed.

Lemma mt_cls_eq {A} f p b s c (k : list ascii -> caps -> option A) :
  mt (S f) (Cls p) (b :: s) c k = if p b then k s c else None.
Proof. reflexivity. Qed.

Lemma star_ws_complete {A} (ws t : list ascii) (c : caps) (k : list ascii -> caps -> option A) :
  forallb py_isspace ws = true -> k t c <> None ->
  forall f, length ws < f -> mt f (Star S_) (ws ++ t) c k <> None.
Proof.
  intros Hws Hk. induction ws as [|w ws IH]; intros f Hf.
  - destruct f as [|f]; [simpl in Hf; lia|]. rewrite mt_star_eq. apply orelse_r. exact Hk.
  - simpl in Hws. apply andb_prop in Hws as [Hw Hws].
    destruct f as [|f]; [simpl in Hf; lia|].
    destruct f as [|f]; [simpl in Hf; lia|].
    rewrite mt_star_eq. apply orelse_l. unfold S_ at 1. cbn [app].
    rewrite mt_cls_eq, Hw.
    replace (Nat.ltb (length (ws ++ t)) (length (w :: ws ++ t))) with true
      by (symmetry; apply Nat.ltb_lt; simpl; lia).
    apply IH; [exact Hws|simpl in Hf; lia].
Qed.

Lemma semi_gap_complete ws post :
  forallb py_isspace ws = true ->
  match_at semi_gap (";"%char :: ws ++ ";"%char :: post) <> None.
Proof.
  intros Hws. unfold match_at.
  assert (Hf : exists m, fuel_for semi_gap (";"%char :: ws ++ ";"%char :: post)
                         = length ws + 4 + m).
  { exists (fuel_for semi_gap (";"%char :: ws ++ ";"%char :: post) - (length ws + 4)).
    unfold fuel_for. change (size semi_gap) with 6. simpl length. rewrite length_app.
    simpl length. lia. }
  destruct Hf as [m ->].
  replace (length ws + 4 + m) with (S (S (length ws + 2 + m))) by lia.
  cbn [mt semi_gap Cat Lit Lit_l chars list_ascii_of_string Ascii.eqb].
  simpl (Ascii.eqb _ _). cbv iota.
  apply star_ws_complete; [exact Hws| |lia].
  replace (length ws + 2 + m) with (S (length ws + 1 + m)) by lia.
  simpl. discriminate.
Qed.

Lemma in_loop_finding code errs U O :
  errs = (if existsb (fun r => search_l r (chars code)) Conceptual.null_deref
          then [Conceptual.msg_null] else [])
         ++ (if contains code "malloc" && negb (contains code "free")
             then [Conceptual.msg_leak] else [])
         ++ U
         ++ (if search_l Conceptual.unsafe_copy (chars code)
                && negb (search_l Conceptual.bounded_copy (chars code))
             then [Conceptual.msg_overflow] else [])
         ++ (if search_l Conceptual.infinite_for (chars code) then [Conceptual.msg_loop] else [])
         ++ (if existsb (fun r => search_l r (chars code)) Conceptual.dangling
             then [Conceptual.msg_dangling] else [])
         ++ O ->
  (forall m, In m U -> exists x, m = (Conceptual.msg_uninit ++ x)%string) ->
  (forall m, In m O -> exists n i s, m = Conceptual.msg_oob n i s) ->
  (In Conceptual.msg_loop errs <-> search_l Conceptual.infinite_for (chars code) = true).
Proof.
  intros -> HU HO. split.
  - intros H. repeat (apply in_app_or in H as [H|H]).
    + destruct (existsb _ Conceptual.null_deref); [destruct H as [H|[]]; discriminate H|destruct H].
    + destruct (_ && negb (contains code "free")); [destruct H as [H|[]]; discriminate H|destruct H].
    + destruct (HU _ H) as [x Hx]. exfalso. exact (msg_uninit_not_loop x (eq_sym Hx)).
    + destruct (search_l Conceptual.unsafe_copy _ && _);
        [destruct H as [H|[]]; discriminate H|destruct H].
    + destruct (search_l Conceptual.infinite_for _); [reflexivity|destruct H].
    + destruct (existsb _ Conceptual.dangling); [destruct H as [H|[]]; discriminate H|destruct H].
    + destruct (HO _ H) as (n & i & s & Hx). exfalso. exact (msg_oob_not_loop n i s (eq_sym Hx)).
  - intros H. rewrite H. apply in_or_app. right. apply in_or_app. right.
    apply in_or_app. right. apply in_or_app. right. left. reflexivity.
Qed.

Lemma loop_finding_iff code :
  exists errs, Conceptual.conceptual_errors code = Ok errs
    /\ (In Conceptual.msg_loop errs <-> search_l Conceptual.infinite_for (chars code) = true).
Proof.
  destruct (conceptual_errors_shape code) as (U & O & E & HU & HO). cbv zeta in E.
  eexists. split; [exact E|]. eapply in_loop_finding; [reflexivity|exact HU|exact HO].
Qed.

(** C7 (amended): every snippet containing [for(;;)] gets the
    infinite-loop finding; a snippet gets it only if it holds a [;],
    optional whitespace and another [;] (a match of [;\s*;]), so the
    snippet [for(int i=0;i<10;i++)] does not get it. *)
Theorem conceptual_scan_infinite_loop (code : string) :
  exists errs,
    Conceptual.conceptual_errors code = Ok errs
    /\ (contains code "for(;;)" = true -> In Conceptual.msg_loop errs)
    /\ (search_l semi_gap (chars code) = false -> ~ In Conceptual.msg_loop errs).
Proof.
  destruct (loop_finding_iff code) as (errs & E & Hiff).
  exists errs. split; [exact E|]. split.
  - intros Hc. apply Hiff. unfold contains in Hc.
    apply contains_l_sound in Hc as (pre & t & Ht & P).
    apply prefixb_app in P. cbn [chars list_ascii_of_string app length skipn] in P.
    rewrite Ht, P. apply search_l_complete. apply infinite_for_at_front.
  - intros Hg Hin. apply Hiff in Hin.
    apply search_l_sound in Hin as (pre & t & rest & Ht & M).
    apply infinite_for_mrel in M as (pre' & ws & post & -> & Hws).
    rewrite Ht, app_assoc in Hg.
    rewrite (search_l_complete semi_gap (pre ++ pre') _ (semi_gap_complete ws post Hws)) in Hg.
    discriminate Hg.
Qed.

Lemma conceptual_scan_infinite_loop_witness :
  (exists errs, Conceptual.conceptual_errors "for(int i=0;i<10;i++)" = Ok errs
                /\ ~ In Conceptual.msg_loop errs)
  /\ (exists errs, Conceptual.conceptual_errors "int main(){for(;;){}}" = Ok errs
                   /\ In Conceptual.msg_loop errs).
Proof.
  split.
  - destruct (conceptual_scan_infinite_loop "for(int i=0;i<10;i++)") as (errs & E & _ & H).
    exists errs. split; [exact E|]. apply H. vm_compute. reflexivity.
  - destruct (conceptual_scan_infinite_loop "int main(){for(;;){}}") as (errs & E & H & _).
    exists errs. split; [exact E|]. apply H. vm_compute. reflexivity.
Defined.

(** C7 does not hold for every snippet whose only loop is
    [for(int i=0;i<10;i++)]: an empty statement [;;] in its body, on the
    line of the [for(], makes the loop rule fire. *)
Lemma conceptual_scan_infinite_loop_cex :
  Conceptual.conceptual_errors
    "int main(){int s=0;for(int i=0;i<10;i++){s+=i;;}return s;}"
  = Ok [Conceptual.msg_loop].
Proof. vm_compute. reflexivity. Qed.

(* ------------------------------------------------------------------ *)
(** ** Temporary files of the C/C++ layers *)

(** C1 (code bug): the C/C++ layers remove their temporary files only on
    the success path.  When valgrind runs past its 5 second timeout, the
    [TimeoutExpired] is caught and the source file and the compiled
    binary are left behind; likewise when running cppcheck raises. *)
Theorem run_c_static_analysis_keeps_temp_files :
  Tools.run_c_static_analysis (fun n => String.eqb n "valgrind")
    (fun cmd => match cmd with
                | "gcc" :: _ => PDone (mk_completed 0 "" "")
                | "valgrind" :: _ => PSlow (mk_completed 0 "" "")
                | _ => PFail (mk_exc "FileNotFoundError" "No such file or directory")
                end)
    "posix" "int main(){for(;;);}" false (mk_fs [] 0)
  = (Ok [("conceptual_errors", Conceptual.msg_loop);
         ("cppcheck", "Tool not available (cppcheck is not installed or not in PATH)");
         ("clang_analyze", "Tool not available (clang/clang++ is not installed or not in PATH)");
         ("memory_analysis",
          "Error running valgrind: Command '['valgrind', '--leak-check=full', '--show-leak-kinds=all', '/tmp/tmp0.c.out']' timed out after 5 seconds")],
     mk_fs ["/tmp/tmp0.c.out"; "/tmp/tmp0.c"] 1)
  /\ snd (Tools.run_c_static_analysis (fun n => String.eqb n "cppcheck")
            (fun _ => PFail (mk_exc "PermissionError" "Permission denied"))
            "posix" "int main(){return 0;}" false (mk_fs [] 0))
     = mk_fs ["/tmp/tmp0.c"] 1.
Proof. split; vm_compute; reflexivity. Qed.

(* ------------------------------------------------------------------ *)
(** ** The shape of the C/C++ findings dictionary *)

Lemma join_head_nonempty sep x r : x <> "" -> join sep (x :: r) <> "".
Proof. intros Hx. destruct r; simpl; destruct x; [contradiction|discriminate|contradiction|discriminate]. Qed.

Lemma conceptual_report_nonempty code :
  exists v, Conceptual.conceptual_report code = Ok v /\ v <> "".
Proof.
  destruct (conceptual_errors_shape code) as (U & O & E & HU & HO). cbv zeta in E.
  unfold Conceptual.conceptual_report. rewrite E. cbn [exc_bind].
  eexists. split; [reflexivity|].
  match goal with |- match ?l with _ => _ end <> "" => destruct l as [|x r] eqn:El end;
    [unfold Conceptual.msg_none; discriminate|].
  apply join_head_nonempty.
  assert (Hin : In x (x :: r)) by (left; reflexivity). rewrite <- El in Hin.
  repeat (apply in_app_iff in Hin as [Hin|Hin]);
  repeat match goal with
         | H : In _ (if ?b then _ else _) |- _ => destruct b
         | H : In _ [] |- _ => destruct H
         | H : In _ [_] |- _ => destruct H as [<-|[]]; unfold Conceptual.msg_null,
             Conceptual.msg_leak, Conceptual.msg_overflow, Conceptual.msg_loop,
             Conceptual.msg_dangling; discriminate
         end.
  - destruct (HU x Hin) as [y ->]. unfold Conceptual.msg_uninit. discriminate.
  - destruct (HO x Hin) as (n & i & s & ->). unfold Conceptual.msg_oob. discriminate.
Qed.

Lemma st_bind_ok {S A B} (m : ST S A) (f : A -> ST S B) s b s2 :
  st_bind m f s = (Ok b, s2) -> exists a s1, m s = (Ok a, s1) /\ f a s1 = (Ok b, s2).
Proof. unfold st_bind. destruct (m s) as [[a|e] s1]; [eauto|discriminate]. Qed.

Lemma st_bind_total {S A B} (P : A -> Prop) (Q : B -> Prop) (m : ST S A) (f : A -> ST S B) s :
  (exists a s1, m s = (Ok a, s1) /\ P a) ->
  (forall a s1, P a -> exists b s2, f a s1 = (Ok b, s2) /\ Q b) ->
  exists b s2, st_bind m f s = (Ok b, s2) /\ Q b.
Proof. intros (a & s1 & E & Ha) Hf. unfold st_bind. rewrite E. auto. Qed.

Lemma st_try_total {S A} (P : A -> Prop) (m : ST S A) h s :
  (forall v s', m s = (Ok v, s') -> P v) ->
  (forall e s', exists v s'', h e s' = (Ok v, s'') /\ P v) ->
  exists v s', st_try m h s = (Ok v, s') /\ P v.
Proof. intros Hm Hh. unfold st_try. destruct (m s) as [[v|e] s'] eqn:E; eauto. Qed.

Lemma st_ret_nonempty {S} (v : string) (s : S) :
  v <> "" -> exists v' s', st_ret v s = (Ok v', s') /\ v' <> "".
Proof. intros H. exists v, s. auto. Qed.

Lemma or_default_nonempty o d : d <> "" -> Tools.or_default o d <> "".
Proof. unfold Tools.or_default. destruct (String.eqb_spec o ""); auto. Qed.

Ltac st_ok_inv H :=
  repeat (apply st_bind_ok in H as (? & ? & ? & H); cbv beta zeta in H).

(** C10: whatever tools are installed and however they behave, the C/C++
    analysis returns a dictionary with exactly the keys conceptual_errors,
    cppcheck, clang_analyze and memory_analysis, in that order, each bound
    to a non-empty text. *)
Theorem run_c_static_analysis_four_keys (avail : string -> bool)
    (proc : list string -> proc_outcome) (os : string) (code : string)
    (is_cpp : bool) (s : fs) :
  exists res s',
    Tools.run_c_static_analysis avail proc os code is_cpp s = (Ok res, s')
    /\ map fst res = ["conceptual_errors"; "cppcheck"; "clang_analyze"; "memory_analysis"]
    /\ Forall (fun kv => snd kv <> "") res.
Proof.
  unfold Tools.run_c_static_analysis.
  apply (st_bind_total (fun v => v <> "")).
  { destruct (conceptual_report_nonempty code) as (v & E & Hv).
    exists v, s. unfold st_lift. rewrite E. auto. }
  intros ce s1 Hce. cbv beta zeta.
  apply (st_bind_total (fun v => v <> "")).
  { destruct (avail "cppcheck"); [|apply st_ret_nonempty; discriminate].
    apply st_try_total.
    - intros v s' H. st_ok_inv H. injection H as <- _.
      apply or_default_nonempty. discriminate.
    - intros e s'. apply st_ret_nonempty. discriminate. }
  intros cpp s2 Hcpp.
  apply (st_bind_total (fun v => v <> "")).
  { destruct (avail _); [|apply st_ret_nonempty; discriminate].
    apply st_try_total.
    - intros v s' H. st_ok_inv H. injection H as <- _.
      apply or_default_nonempty. discriminate.
    - intros e s'. apply st_ret_nonempty. discriminate. }
  intros cla s3 Hcla.
  apply (st_bind_total (fun v => v <> "")).
  { destruct (avail "valgrind" && negb (String.eqb os "nt")).
    - apply st_try_total.
      + intros v s' H. apply st_bind_ok in H as (? & ? & ? & H). cbv beta zeta in H.
        apply st_bind_ok in H as (? & ? & ? & H). cbv beta zeta in H.
        apply st_bind_ok in H as (out & ? & Hout & H). cbv beta zeta in H.
        st_ok_inv H. injection H as <- _.
        destruct (Z.eqb _ 0).
        * st_ok_inv Hout. injection Hout as <- _.
          apply or_default_nonempty. discriminate.
        * injection Hout as <- _. discriminate.
      + intros e s'. apply st_ret_nonempty. discriminate.
    - destruct (String.eqb os "nt"); apply st_ret_nonempty; discriminate. }
  intros mem s4 Hmem.
  eexists _, _. split; [reflexivity|]. split; [reflexivity|].
  repeat constructor; assumption.
Qed.

(* ------------------------------------------------------------------ *)
(** ** Where the errors of a container run go *)

Lemma with_tmpdir_cleanup_raises (make_tmpdir : Exc unit) e body :
  make_tmpdir = Ok tt -> Docker.with_tmpdir make_tmpdir (Raise e) body = Raise e.
Proof. intros ->. unfold Docker.with_tmpdir. destruct body; reflexivity. Qed.

(** C2: with the engine reachable at start-up, a failure of
    [docker.from_env()], of creating the temporary directory, of
    writing the source or of removing the directory hands over to the
    fallback analysis; a failure of the container run or of reading its
    logs is caught by the inner handler and returned as a
    [Runtime error: ...] payload instead. *)
Theorem run_in_docker_error_routing (ast_parse : string -> Exc unit)
    (docker_from_env make_tmpdir cleanup_tmpdir : Exc unit)
    (write_source containers_run : string -> string -> Exc unit)
    (container_logs : string -> string -> Exc string) (code language : string) :
  In language ["python"; "java"; "c"; "cpp"] ->
  let run := Docker.run_in_docker ast_parse true docker_from_env make_tmpdir cleanup_tmpdir
               write_source containers_run container_logs code language in
  let filename := ("Main." ++ Docker.ext_of language)%string in
  ((exists e, docker_from_env = Raise e) -> run = Docker.run_code_fallback ast_parse code language)
  /\ (docker_from_env = Ok tt -> (exists e, make_tmpdir = Raise e) ->
      run = Docker.run_code_fallback ast_parse code language)
  /\ (docker_from_env = Ok tt -> make_tmpdir = Ok tt ->
      (exists e, write_source filename code = Raise e) ->
      run = Docker.run_code_fallback ast_parse code language)
  /\ (docker_from_env = Ok tt -> make_tmpdir = Ok tt ->
      (exists e, cleanup_tmpdir = Raise e) ->
      run = Docker.run_code_fallback ast_parse code language)
  /\ (exists image cmd, Docker.image_and_cmd language filename = Some (image, cmd)
      /\ forall e,
         docker_from_env = Ok tt -> make_tmpdir = Ok tt -> cleanup_tmpdir = Ok tt ->
         write_source filename code = Ok tt ->
         (containers_run image cmd = Raise e
          \/ (containers_run image cmd = Ok tt /\ container_logs image cmd = Raise e)) ->
         run = Ok ("Runtime error: " ++ exc_msg e)%string).
Proof.
  intros Hl. cbv zeta. unfold Docker.run_in_docker. cbn [negb].
  split; [|split; [|split; [|split]]].
  - intros [e ->]. reflexivity.
  - intros -> [e ->]. reflexivity.
  - intros -> -> [e He]. cbn [exc_bind]. unfold Docker.with_tmpdir. cbn [exc_bind].
    rewrite He. cbn [exc_bind]. destruct cleanup_tmpdir; reflexivity.
  - intros -> Hm [e ->]. cbn [exc_bind]. rewrite with_tmpdir_cleanup_raises by exact Hm.
    reflexivity.
  - assert (Hs : exists image cmd,
              Docker.image_and_cmd language ("Main." ++ Docker.ext_of language)%string
              = Some (image, cmd)).
    { destruct Hl as [<-|[<-|[<-|[<-|[]]]]]; eexists _, _; reflexivity. }
    destruct Hs as (image & cmd & Hs). exists image, cmd. split; [exact Hs|].
    intros e -> -> Hc Hw Hr. cbn [exc_bind]. unfold Docker.with_tmpdir. cbn [exc_bind].
    rewrite Hw. cbn [exc_bind]. rewrite Hs. unfold Docker.run_container.
    destruct Hr as [Hr|[Hr Hg]]; rewrite Hr; cbn [exc_bind]; [|rewrite Hg; cbn [exc_bind]];
      rewrite Hc; reflexivity.
Qed.

(** Witness: a C program whose image cannot be pulled, a client that
    cannot connect, and a directory that cannot be removed. *)
Lemma run_in_docker_error_routing_witness :
  Docker.run_in_docker (fun _ => Ok tt) true (Ok tt) (Ok tt) (Ok tt) (fun _ _ => Ok tt)
    (fun _ _ => Raise (mk_exc "ImageNotFound" "pull access denied for gcc"))
    (fun _ _ => Ok "") "int main(){return 0;}" "c"
  = Ok "Runtime error: pull access denied for gcc"
  /\ Docker.run_in_docker (fun _ => Ok tt) true (Raise (mk_exc "DockerException" "socket closed"))
       (Ok tt) (Ok tt) (fun _ _ => Ok tt) (fun _ _ => Ok tt) (fun _ _ => Ok "")
       "int main(){return 0;}" "c"
     = Docker.run_code_fallback (fun _ => Ok tt) "int main(){return 0;}" "c"
  /\ Docker.run_in_docker (fun _ => Ok tt) true (Ok tt) (Ok tt)
       (Raise (mk_exc "PermissionError" "Operation not permitted")) (fun _ _ => Ok tt)
       (fun _ _ => Ok tt) (fun _ _ => Ok "") "int main(){return 0;}" "c"
     = Docker.run_code_fallback (fun _ => Ok tt) "int main(){return 0;}" "c".
Proof.
  pose proof (run_in_docker_error_routing (fun _ => Ok tt) (Ok tt) (Ok tt) (Ok tt)
    (fun _ _ => Ok tt) (fun _ _ => Raise (mk_exc "ImageNotFound" "pull access denied for gcc"))
    (fun _ _ => Ok "") "int main(){return 0;}" "c") as H1.
  pose proof (run_in_docker_error_routing (fun _ => Ok tt)
    (Raise (mk_exc "DockerException" "socket closed")) (Ok tt) (Ok tt)
    (fun _ _ => Ok tt) (fun _ _ => Ok tt) (fun _ _ => Ok "") "int main(){return 0;}" "c") as H2.
  assert (Hc : In "c" ["python"; "java"; "c"; "cpp"]) by (simpl; tauto).
  destruct (H1 Hc) as (_ & _ & _ & _ & image & cmd & Hs & Hr).
  destruct (H2 Hc) as (Hf & _).
  pose proof (run_in_docker_error_routing (fun _ => Ok tt) (Ok tt) (Ok tt)
    (Raise (mk_exc "PermissionError" "Operation not permitted"))
    (fun _ _ => Ok tt) (fun _ _ => Ok tt) (fun _ _ => Ok "") "int main(){return 0;}" "c") as H3.
  destruct (H3 Hc) as (_ & _ & _ & Hd & _).
  split; [|split].
  - apply (Hr (mk_exc "ImageNotFound" "pull access denied for gcc")); try reflexivity.
    left. reflexivity.
  - apply Hf. eexists. reflexivity.
  - apply Hd; [reflexivity|reflexivity|eexists; reflexivity].
Defined.

(** C2 (counterexample to the unqualified reading): the container run
    raises, yet the answer is the runtime-error payload, not the fallback
    analysis. *)
Lemma run_in_docker_runtime_error_cex :
  Docker.run_in_docker (fun _ => Ok tt) true (Ok tt) (Ok tt) (Ok tt) (fun _ _ => Ok tt)
    (fun _ _ => Raise (mk_exc "ImageNotFound" "pull access denied for gcc"))
    (fun _ _ => Ok "") "int main(){return 0;}" "c"
  = Ok "Runtime error: pull access denied for gcc"
  /\ Docker.run_code_fallback (fun _ => Ok tt) "int main(){return 0;}" "c"
     = Ok ("C code analysis (without execution):" ++ nl)%string.
Proof. split; vm_compute; reflexivity. Qed.

(* ------------------------------------------------------------------ *)
(** ** The fallback analysis when the engine is off *)

Lemma string_app_assoc (a b c : string) : ((a ++ b) ++ c = a ++ (b ++ c))%string.
Proof. induction a as [|x a IH]; simpl; [reflexivity|]. now rewrite IH. Qed.

Lemma has_prefix_app (p r t : string) :
  (exists u, r = (p ++ u)%string) -> exists u, (r ++ t)%string = (p ++ u)%string.
Proof. intros [u ->]. exists (u ++ t)%string. apply string_app_assoc. Qed.

Lemma has_prefix_if (b : bool) (p r t : string) :
  (exists u, r = (p ++ u)%string) ->
  exists u, (if b then (r ++ t)%string else r) = (p ++ u)%string.
Proof. intros H. destruct b; [now apply has_prefix_app|exact H]. Qed.

Lemma has_prefix_finish (d p r : string) :
  p <> "" -> (exists u, r = (p ++ u)%string) ->
  exists u, (if String.eqb r "" then d else r) = (p ++ u)%string.
Proof. intros Hp [u ->]. destruct p as [|a p]; [contradiction|]. simpl. eauto. Qed.

Ltac has_prefix :=
  repeat first
    [ solve [eexists; reflexivity]
    | apply has_prefix_if
    | apply has_prefix_app
    | match goal with
      | |- context [match ?x with [] => _ | _ :: _ => _ end] => destruct x
      end ];
  eexists; reflexivity.

(** The header of the fallback analysis of each supported language. *)
Definition fallback_header (language : string) : string :=
  if String.eqb language "python" then "Python code analysis (without execution):" ++ nl
  else if String.eqb language "java" then "Java code analysis (without execution):" ++ nl
  else py_upper language ++ " code analysis (without execution):" ++ nl.

(** With the engine flag off, python (whose parser reports only syntax
    errors), C and C++ code get the fallback analysis, labelled by its
    header as analysis without execution. *)
Lemma run_in_docker_fallback_labelled ast_parse docker_from_env make_tmpdir cleanup_tmpdir
    write_source containers_run container_logs code language :
  In language ["python"; "c"; "cpp"] ->
  (forall e, ast_parse code = Raise e -> Docker.is_syntax_error e = true) ->
  exists r,
    Docker.run_in_docker ast_parse false docker_from_env make_tmpdir cleanup_tmpdir
      write_source containers_run container_logs code language = Ok r
    /\ exists u, r = (fallback_header language ++ u)%string.
Proof.
  intros Hl Hp. unfold Docker.run_in_docker, Docker.run_code_fallback. cbn [negb].
  destruct Hl as [<-|[<-|[<-|[]]]].
  - cbn [String.eqb Ascii.eqb Bool.eqb]. unfold fallback_header. cbn [String.eqb Ascii.eqb Bool.eqb].
    destruct (ast_parse code) as [[]|e] eqn:E; [|rewrite (Hp e eq_refl)];
      cbn [exc_bind]; (eexists; split; [reflexivity|]);
      (apply has_prefix_finish; [discriminate|]); has_prefix.
  - cbn [String.eqb Ascii.eqb Bool.eqb existsb orb].
    rewrite (search_any_valid Conceptual.null_deref code) by (vm_compute; reflexivity).
    rewrite (findall_valid Conceptual.uninit _ _) by (vm_compute; reflexivity).
    rewrite (search_valid Conceptual.unsafe_copy _) by (vm_compute; reflexivity).
    rewrite (search_valid Conceptual.bounded_copy _) by (vm_compute; reflexivity).
    rewrite (search_valid Conceptual.infinite_for _) by (vm_compute; reflexivity).
    cbn [exc_bind]. destruct (search_l Conceptual.unsafe_copy _); cbn [exc_bind];
      (eexists; split; [reflexivity|]);
      (apply has_prefix_finish; [vm_compute; discriminate|]); has_prefix.
  - cbn [String.eqb Ascii.eqb Bool.eqb existsb orb].
    rewrite (search_any_valid Conceptual.null_deref code) by (vm_compute; reflexivity).
    rewrite (findall_valid Conceptual.uninit _ _) by (vm_compute; reflexivity).
    rewrite (search_valid Conceptual.unsafe_copy _) by (vm_compute; reflexivity).
    rewrite (search_valid Conceptual.bounded_copy _) by (vm_compute; reflexivity).
    rewrite (search_valid Conceptual.infinite_for _) by (vm_compute; reflexivity).
    cbn [exc_bind]. destruct (search_l Conceptual.unsafe_copy _); cbn [exc_bind];
      (eexists; split; [reflexivity|]);
      (apply has_prefix_finish; [vm_compute; discriminate|]); has_prefix.
Qed.

(** C4 (code bug): with the engine flag off, Java code that contains both
    [new] and [= null] makes the fallback raise [re.error], because the
    pattern [\w+\s*=\s*new\s+\w+.*;\s*.*\1\s*=\s*null] refers to a group
    it does not have; no labelled fallback payload is returned. *)
Theorem run_in_docker_java_fallback_raises ast_parse docker_from_env make_tmpdir cleanup_tmpdir
    write_source containers_run container_logs :
  Docker.run_in_docker ast_parse false docker_from_env make_tmpdir cleanup_tmpdir
    write_source containers_run container_logs "Object o = new Object(); o = null;" "java"
  = Raise compile_error.
Proof. reflexivity. Qed.

(* ------------------------------------------------------------------ *)
(** ** The single-submission endpoint *)

(** C8: a request whose code is empty or only whitespace is answered with
    a 400 before any stage runs; one whose language is detected as
    unknown is answered with a 400 after detection, before static
    analysis, execution or synthesis. *)
Theorem analyze_rejects_early (llm_detect : string -> Exc string)
    (static_py : string -> Exc (dict string)) (static_c : string -> bool -> Exc (dict string))
    (exec : string -> string -> Exc string)
    (synth : string -> dict string -> string -> string -> Exc string)
    (code : string) (tr : list stage) :
  (strip_is_empty code = true ->
   Endpoints.analyze llm_detect static_py static_c exec synth code tr
   = (Raise (http_exception 400 "No code provided"), tr))
  /\ (strip_is_empty code = false ->
      Endpoints.detect_language_with_llm llm_detect code = Ok "unknown" ->
      Endpoints.analyze llm_detect static_py static_c exec synth code tr
      = (Raise (http_exception 400 "Unsupported or undetectable language"), tr ++ [SDetect])).
Proof.
  unfold Endpoints.analyze. split.
  - intros ->. reflexivity.
  - intros -> Hd. unfold st_bind, Endpoints.stage_call. rewrite Hd. reflexivity.
Qed.

(** Witness: a blank submission, and one the model calls [Unknown]. *)
Lemma analyze_rejects_early_witness :
  Endpoints.analyze (fun _ => Ok " Unknown ") (fun _ => Ok []) (fun _ _ => Ok [])
    (fun _ _ => Ok "") (fun _ _ _ _ => Ok "") " 	 " []
  = (Raise (http_exception 400 "No code provided"), [])
  /\ Endpoints.analyze (fun _ => Ok " Unknown ") (fun _ => Ok []) (fun _ _ => Ok [])
       (fun _ _ => Ok "") (fun _ _ _ _ => Ok "") "x = 1" []
     = (Raise (http_exception 400 "Unsupported or undetectable language"), [SDetect]).
Proof.
  split.
  - apply (proj1 (analyze_rejects_early (fun _ => Ok " Unknown ") (fun _ => Ok [])
            (fun _ _ => Ok []) (fun _ _ => Ok "") (fun _ _ _ _ => Ok "") " 	 " [])).
    reflexivity.
  - apply (proj2 (analyze_rejects_early (fun _ => Ok " Unknown ") (fun _ => Ok [])
            (fun _ _ => Ok []) (fun _ _ => Ok "") (fun _ _ _ _ => Ok "") "x = 1" []));
      vm_compute; reflexivity.
Defined.

(* ------------------------------------------------------------------ *)
(** ** The repository walk *)

Lemma dict_set_fresh {V} (k : string) (v : V) (d : dict V) :
  ~ In k (map fst d) -> dict_set k v d = d ++ [(k, v)].
Proof.
  induction d as [|[k' v'] d IH]; simpl; [reflexivity|]. intros Hn.
  destruct (String.eqb_spec k k'); [subst; tauto|]. rewrite IH; tauto.
Qed.

Lemma dict_set_keys {V} (k k' : string) (v : V) (d : dict V) :
  In k (map fst (dict_set k' v d)) -> k = k' \/ In k (map fst d).
Proof.
  induction d as [|[k'' v''] d IH]; simpl.
  - intros [<-|[]]. left. reflexivity.
  - destruct (String.eqb_spec k' k''); simpl; intros [H|H].
    + left. congruence.
    + right. right. exact H.
    + right. left. exact H.
    + destruct (IH H); auto.
Qed.

Lemma dict_get_none {V} (k : string) (d : dict V) : ~ In k (map fst d) -> dict_get k d = None.
Proof.
  induction d as [|[k' v'] d IH]; simpl; [reflexivity|]. intros Hn.
  destruct (String.eqb_spec k k'); [subst; tauto|]. apply IH; tauto.
Qed.

Lemma dict_get_app_l {V} (k : string) (d1 d2 : dict V) :
  ~ In k (map fst d1) -> dict_get k (d1 ++ d2) = dict_get k d2.
Proof.
  induction d1 as [|[k' v'] d IH]; simpl; [reflexivity|]. intros Hn.
  destruct (String.eqb_spec k k'); [subst; tauto|]. apply IH; tauto.
Qed.

Lemma dict_get_map {V} (f : string -> V) (ps : list string) (p : string) :
  In p ps -> dict_get p (map (fun q => (q, f q)) ps) = Some (f p).
Proof.
  induction ps as [|q ps IH]; simpl; [tauto|]. intros H.
  destruct (String.eqb_spec p q); [subst; reflexivity|]. apply IH. destruct H; [congruence|auto].
Qed.

Lemma filter_eqb_nodup (x : string) (l : list string) :
  NoDup l -> In x l -> length (filter (fun p => String.eqb p x) l) = 1.
Proof.
  induction l as [|y l IH]; simpl; [tauto|]. intros Hd Hi. inversion Hd as [|? ? Hy Hl]; subst.
  destruct (String.eqb_spec y x).
  - subst. simpl. f_equal.
    assert (E : forall m, ~ In x m -> filter (fun p => String.eqb p x) m = []).
    { induction m as [|z m IHm]; simpl; [reflexivity|]. intros Hz.
      destruct (String.eqb_spec z x); [subst; tauto|]. apply IHm; tauto. }
    now rewrite E.
  - apply IH; [exact Hl|]. destruct Hi; [congruence|assumption].
Qed.

(** An entry as the loop records it. *)
Definition entry_of (r : Exc (option analysis)) : entry :=
  match r with
  | Ok (Some a) => EResult a
  | Ok None => EError ""
  | Raise e => EError (exc_msg e)
  end.

Definition is_error (e : entry) : bool := match e with EError _ => true | EResult _ => false end.

Section RepoWalk.

Variable llm_detect : string -> Exc string.
Variable static_py : string -> Exc (dict string).
Variable static_c : string -> bool -> Exc (dict string).
Variable exec : string -> string -> Exc string.
Variable synth : string -> dict string -> string -> string -> Exc string.
Variable read_file : string -> Exc string.

Local Abbreviation file_body :=
  (Endpoints.file_body llm_detect static_py static_c exec synth read_file).
Local Abbreviation repo_step :=
  (Endpoints.repo_step llm_detect static_py static_c exec synth read_file).
Local Abbreviation repo_results :=
  (Endpoints.repo_results llm_detect static_py static_c exec synth read_file).

Lemma repo_fold_app (walk : list walk_file) (acc : dict entry) :
  let ps := map rel_path (filter is_supported walk) in
  NoDup ps ->
  (forall p, In p ps -> ~ In p (map fst acc)) ->
  (forall p, In p ps -> file_body p <> Ok None) ->
  fold_left repo_step walk acc = acc ++ map (fun p => (p, entry_of (file_body p))) ps.
Proof.
  revert acc. induction walk as [|w walk IH]; intros acc; cbv zeta; simpl.
  { intros. symmetry. apply app_nil_r. }
  unfold Endpoints.repo_step at 2. destruct (is_supported w) eqn:Hs; simpl.
  - intros Hd Hf Hn. inversion Hd as [|? ? Hw Hps]; subst.
    assert (Hacc : forall p, In p (map rel_path (filter is_supported walk)) ->
                   ~ In p (map fst (acc ++ [(rel_path w, entry_of (file_body (rel_path w)))]))).
    { intros p Hp. rewrite map_app, in_app_iff. simpl. intros [H|[H|[]]].
      - exact (Hf p (or_intror Hp) H).
      - subst. contradiction. }
    destruct (file_body (rel_path w)) as [[a|]|e] eqn:Eb.
    + rewrite dict_set_fresh by (apply Hf; left; reflexivity).
      rewrite IH.
      * rewrite <- app_assoc. reflexivity.
      * exact Hps.
      * try rewrite Eb in Hacc. exact Hacc.
      * intros p Hp. apply Hn. right. exact Hp.
    + exfalso. exact (Hn _ (or_introl eq_refl) Eb).
    + rewrite dict_set_fresh by (apply Hf; left; reflexivity).
      rewrite IH.
      * rewrite <- app_assoc. reflexivity.
      * exact Hps.
      * try rewrite Eb in Hacc. exact Hacc.
      * intros p Hp. apply Hn. right. exact Hp.
  - apply IH.
Qed.

(** C5: in a walk whose supported files have distinct paths, when exactly
    one file's pipeline raises and every other file is detected in a
    supported language and analysed, the mapping has one entry per
    supported file, in walk order: an error entry with the exception's
    message for the failing path, and analysis results for all others. *)
Theorem repo_results_one_failure (walk : list walk_file) (bad : string) (e : pyexc) :
  let ps := map rel_path (filter is_supported walk) in
  NoDup ps -> In bad ps -> file_body bad = Raise e ->
  (forall p, In p ps -> p <> bad -> exists a, file_body p = Ok (Some a)) ->
  let res := repo_results walk in
  map fst res = ps
  /\ length res = length ps
  /\ dict_get bad res = Some (EError (exc_msg e))
  /\ (forall p, In p ps -> p <> bad -> exists a, dict_get p res = Some (EResult a))
  /\ length (filter (fun kv => is_error (snd kv)) res) = 1.
Proof.
  cbv zeta. intros Hd Hb Hbe Hok.
  assert (Hn : forall p, In p (map rel_path (filter is_supported walk)) -> file_body p <> Ok None).
  { intros p Hp. destruct (String.eqb_spec p bad) as [->|Hne].
    - rewrite Hbe. discriminate.
    - destruct (Hok p Hp Hne) as [a ->]. discriminate. }
  unfold Endpoints.repo_results.
  rewrite (repo_fold_app walk [] Hd (fun p _ H => H) Hn). simpl.
  set (ps := map rel_path (filter is_supported walk)) in *.
  split; [|split; [|split; [|split]]].
  - rewrite map_map. simpl. apply map_id.
  - apply length_map.
  - rewrite (dict_get_map (fun p => entry_of (file_body p)) ps bad Hb), Hbe. reflexivity.
  - intros p Hp Hne. destruct (Hok p Hp Hne) as [a Ha]. exists a.
    rewrite (dict_get_map (fun p => entry_of (file_body p)) ps p Hp), Ha. reflexivity.
  - assert (E : forall l, filter (fun kv => is_error (snd kv))
                          (map (fun p => (p, entry_of (file_body p))) l)
                   = map (fun p => (p, entry_of (file_body p)))
                         (filter (fun p => is_error (entry_of (file_body p))) l)).
    { induction l as [|q l IH]; simpl; [reflexivity|].
      destruct (is_error (entry_of (file_body q))); simpl; now rewrite IH. }
    rewrite E, length_map.
    rewrite (filter_ext_in _ (fun p => String.eqb p bad)).
    + now apply filter_eqb_nodup.
    + intros p Hp. destruct (String.eqb_spec p bad) as [->|Hne].
      * rewrite Hbe. reflexivity.
      * destruct (Hok p Hp Hne) as [a ->]. reflexivity.
Qed.

Lemma repo_fold_keys (walk : list walk_file) (acc : dict entry) (k : string) :
  In k (map fst (fold_left repo_step walk acc)) ->
  In k (map fst acc) \/ (exists w, In w walk /\ rel_path w = k /\ file_body k <> Ok None).
Proof.
  revert acc. induction walk as [|w walk IH]; intros acc H; simpl in H; [tauto|].
  destruct (IH _ H) as [H1|(w' & Hw' & Hk & Hb)].
  - unfold Endpoints.repo_step in H1. destruct (is_supported w); [|tauto].
    destruct (file_body (rel_path w)) as [[a|]|e] eqn:Eb; [| tauto |];
      (apply dict_set_keys in H1 as [->|H1]; [|tauto]);
      right; exists w; (split; [left; reflexivity|split; [reflexivity|]]); rewrite Eb; discriminate.
  - right. exists w'. split; [right; exact Hw'|]. tauto.
Qed.

(** C9: a supported file whose language is detected as unknown gets no
    entry at all in the mapping. *)
Theorem repo_results_skip_unknown (walk : list walk_file) (w : walk_file) (code : string) :
  In w walk -> is_supported w = true ->
  read_file (rel_path w) = Ok code ->
  Endpoints.detect_language_with_llm llm_detect code = Ok "unknown" ->
  ~ In (rel_path w) (map fst (repo_results walk))
  /\ dict_get (rel_path w) (repo_results walk) = None.
Proof.
  intros _ _ Hr Hd.
  assert (Hn : file_body (rel_path w) = Ok None).
  { unfold Endpoints.file_body. rewrite Hr. cbn [exc_bind]. rewrite Hd. reflexivity. }
  assert (Hni : ~ In (rel_path w) (map fst (repo_results walk))).
  { intros H. destruct (repo_fold_keys walk [] _ H) as [[]|(_ & _ & _ & Hb)]. contradiction. }
  split; [exact Hni|]. now apply dict_get_none.
Qed.

End RepoWalk.

(** Witness for C5: three supported files, the second unreadable. *)
Lemma repo_results_one_failure_witness :
  Endpoints.repo_results (fun _ => Ok "c") (fun _ => Ok []) (fun _ _ => Ok [])
    (fun _ _ => Ok "No output") (fun _ _ _ _ => Ok "ok")
    (fun p => if String.eqb p "src/b.c"
              then Raise (mk_exc "PermissionError" "Permission denied") else Ok "int x;")
    [mk_walk_file "" "a.c"; mk_walk_file "src" "b.c"; mk_walk_file "src" "README.md";
     mk_walk_file "src" "c.cpp"]
  = [("a.c", EResult (mk_analysis "c" [] "No output" "ok"));
     ("src/b.c", EError "Permission denied");
     ("src/c.cpp", EResult (mk_analysis "c" [] "No output" "ok"))].
Proof.
  pose proof (repo_results_one_failure (fun _ => Ok "c") (fun _ => Ok []) (fun _ _ => Ok [])
    (fun _ _ => Ok "No output") (fun _ _ _ _ => Ok "ok")
    (fun p => if String.eqb p "src/b.c"
              then Raise (mk_exc "PermissionError" "Permission denied") else Ok "int x;")
    [mk_walk_file "" "a.c"; mk_walk_file "src" "b.c"; mk_walk_file "src" "README.md";
     mk_walk_file "src" "c.cpp"] "src/b.c" (mk_exc "PermissionError" "Permission denied")) as H.
  cbv zeta in H. destruct H as (Hk & _ & Hb & _ & _).
  - vm_compute. repeat constructor; simpl; intuition discriminate.
  - vm_compute. tauto.
  - reflexivity.
  - intros p Hp Hne. vm_compute in Hp.
    destruct Hp as [<-|[<-|[<-|[]]]]; [|congruence|]; eexists; reflexivity.
  - vm_compute. reflexivity.
Defined.

(** Witness for C9: a supported file the model calls unknown. *)
Lemma repo_results_skip_unknown_witness :
  dict_get "notes.py"
    (Endpoints.repo_results (fun _ => Ok "unknown") (fun _ => Ok []) (fun _ _ => Ok [])
       (fun _ _ => Ok "") (fun _ _ _ _ => Ok "") (fun _ => Ok "hello")
       [mk_walk_file "" "notes.py"]) = None.
Proof.
  apply (proj2 (repo_results_skip_unknown (fun _ => Ok "unknown") (fun _ => Ok [])
    (fun _ _ => Ok []) (fun _ _ => Ok "") (fun _ _ _ _ => Ok "") (fun _ => Ok "hello")
    [mk_walk_file "" "notes.py"] (mk_walk_file "" "notes.py") "hello"
    (or_introl eq_refl) eq_refl eq_refl eq_refl)).
Defined.

(* ================================================================== *)
(** * Further properties of the code *)

(* ------------------------------------------------------------------ *)
(** ** Stripping and URL normalisation *)

Lemma chars_app (a b : string) : chars (a ++ b) = chars a ++ chars b.
Proof. induction a as [|c a IH]; simpl; [reflexivity|]. unfold chars in *. now rewrite IH. Qed.

Lemma py_strip_eq (s : string) :
  py_strip s = string_of_list_ascii (rev (drop_space (rev (drop_space (chars s))))).
Proof. reflexivity. Qed.

Lemma drop_space_length l : length (drop_space l) <= length l.
Proof. induction l as [|c l IH]; simpl; [lia|]. destruct (py_isspace c); simpl; lia. Qed.

Lemma drop_space_fixed_head c l :
  drop_space (c :: l) = c :: l -> py_isspace c = false.
Proof.
  simpl. destruct (py_isspace c) eqn:E; [|reflexivity].
  intros H. pose proof (drop_space_length l) as L. rewrite H in L. simpl in L. lia.
Qed.

Lemma drop_space_idem l : drop_space (drop_space l) = drop_space l.
Proof.
  induction l as [|c l IH]; simpl; [reflexivity|].
  destruct (py_isspace c) eqn:E; [exact IH|]. simpl. now rewrite E.
Qed.

Lemma drop_space_snoc l c : py_isspace c = false -> drop_space (l ++ [c]) = drop_space l ++ [c].
Proof.
  intros Hc. induction l as [|a l IH]; simpl; [now rewrite Hc|].
  destruct (py_isspace a); [exact IH|reflexivity].
Qed.

Lemma strip_stable l :
  let y := rev (drop_space (rev (drop_space l))) in
  drop_space y = y /\ drop_space (rev y) = rev y.
Proof.
  cbv zeta. rewrite rev_involutive. split; [|apply drop_space_idem].
  pose proof (drop_space_idem l) as Hx. revert Hx. generalize (drop_space l) as x.
  intros [|c x'] Hx; [reflexivity|].
  apply drop_space_fixed_head in Hx. simpl. rewrite drop_space_snoc by exact Hx.
  rewrite rev_app_distr. simpl. now rewrite Hx.
Qed.

Lemma strip_fixed l :
  drop_space l = l -> drop_space (rev l) = rev l -> rev (drop_space (rev (drop_space l))) = l.
Proof. intros H1 H2. rewrite H1, H2. apply rev_involutive. Qed.

Lemma py_strip_fixed (s : string) :
  drop_space (chars s) = chars s -> drop_space (rev (chars s)) = rev (chars s) -> py_strip s = s.
Proof.
  intros H1 H2. rewrite py_strip_eq, strip_fixed by assumption.
  apply string_of_list_ascii_of_string.
Qed.

Lemma py_strip_stable (s : string) :
  drop_space (chars (py_strip s)) = chars (py_strip s)
  /\ drop_space (rev (chars (py_strip s))) = rev (chars (py_strip s)).
Proof. rewrite py_strip_eq. unfold chars. rewrite list_ascii_of_string_of_list_ascii. apply strip_stable. Qed.

Lemma prefixb_refl_app (l m : list ascii) : prefixb l (l ++ m) = true.
Proof. induction l as [|a l IH]; simpl; [reflexivity|]. now rewrite Ascii.eqb_refl. Qed.

Lemma py_endswith_app (a b : string) : py_endswith (a ++ b) b = true.
Proof. unfold py_endswith. rewrite chars_app, rev_app_distr. apply prefixb_refl_app. Qed.

Lemma py_startswith_app (a b : string) : py_startswith (a ++ b) a = true.
Proof. unfold py_startswith. rewrite chars_app. apply prefixb_refl_app. Qed.

Lemma drop_space_app_head a l m :
  py_isspace a = false -> drop_space ((a :: l) ++ m) = (a :: l) ++ m.
Proof. intros H. simpl. now rewrite H. Qed.

(** The URL handed to the clone is its own normal form. *)
Lemma normalize_repo_url_fixed (v : string) :
  py_strip v = v -> v <> "" -> py_endswith v ".git" = true -> Repo.normalize_repo_url v = Ok v.
Proof.
  intros Hs Hn He. unfold Repo.normalize_repo_url. cbv zeta. rewrite Hs, He.
  destruct (String.eqb_spec v ""); [contradiction|]. reflexivity.
Qed.

(** X1: every URL [analyze_repo] accepts is turned into one that ends in
    [.git], and normalising that URL again leaves it unchanged. *)
Theorem normalize_repo_url_git (u v : string) :
  Repo.normalize_repo_url u = Ok v ->
  py_endswith v ".git" = true /\ Repo.normalize_repo_url v = Ok v.
Proof.
  unfold Repo.normalize_repo_url at 1. cbv zeta.
  pose proof (py_strip_stable u) as [S1 S2]. set (w := py_strip u) in *.
  destruct (String.eqb_spec w "") as [_|Hw]; [discriminate|].
  assert (Hw' : chars w <> []).
  { intros E. apply Hw. rewrite <- (string_of_list_ascii_of_string w). fold (chars w). now rewrite E. }
  destruct (chars w) as [|a l] eqn:Ew; [contradiction|].
  pose proof (drop_space_fixed_head a l S1) as Ha.
  destruct (py_endswith w ".git") eqn:E1; destruct (py_startswith w "http") eqn:E2; cbn [negb andb].
  - intros H; injection H as <-. split; [exact E1|]. apply normalize_repo_url_fixed; auto.
    apply py_strip_fixed; rewrite Ew; assumption.
  - intros H; injection H as <-. split; [exact E1|]. apply normalize_repo_url_fixed; auto.
    apply py_strip_fixed; rewrite Ew; assumption.
  - intros H; injection H as <-. split; [apply py_endswith_app|]. apply normalize_repo_url_fixed.
    + apply py_strip_fixed.
      * rewrite chars_app, Ew. apply drop_space_app_head, Ha.
      * rewrite chars_app, rev_app_distr. reflexivity.
    + destruct w; discriminate.
    + apply py_endswith_app.
  - destruct (contains w "/"); [|discriminate]. intros H.
    assert (Hv : v = ("https://github.com/" ++ w ++ ".git")%string) by congruence. subst v.
    split; [rewrite <- string_app_assoc; apply py_endswith_app|].
    apply normalize_repo_url_fixed.
    + apply py_strip_fixed.
      * reflexivity.
      * rewrite !chars_app, !rev_app_distr. reflexivity.
    + discriminate.
    + rewrite <- string_app_assoc. apply py_endswith_app.
Qed.

(** Witness: [owner/repo] with surrounding blanks. *)
Lemma normalize_repo_url_git_witness :
  Repo.normalize_repo_url " owner/repo " = Ok "https://github.com/owner/repo.git"
  /\ py_endswith "https://github.com/owner/repo.git" ".git" = true
  /\ Repo.normalize_repo_url "https://github.com/owner/repo.git"
     = Ok "https://github.com/owner/repo.git".
Proof.
  assert (E : Repo.normalize_repo_url " owner/repo " = Ok "https://github.com/owner/repo.git")
    by reflexivity.
  split; [exact E|]. exact (normalize_repo_url_git _ _ E).
Defined.

(* ------------------------------------------------------------------ *)
(** ** Errors of the repository endpoint *)

(** X2: [analyze_repo] never answers with a 400.  Its own 400 errors (no
    URL, a malformed URL, a failed clone) are raised inside the outer
    [try] and come out of its handler as 500 errors whose detail quotes
    them. *)
Theorem analyze_repo_errors_are_500 llm_detect static_py static_c exec synth read_file clone
    make_tmpdir cleanup_tmpdir walk (repo_url : string) (e : pyexc) :
  Repo.analyze_repo llm_detect static_py static_c exec synth read_file clone make_tmpdir
    cleanup_tmpdir walk repo_url = Raise e ->
  exists detail, e = http_exception 500 detail
    /\ (exists m, detail = ("Unexpected error: " ++ m)%string \/ detail = ("Docker error: " ++ m)%string).
Proof.
  unfold Repo.analyze_repo.
  match goal with |- match ?m with _ => _ end = _ -> _ => destruct m end; [discriminate|].
  intros H. injection H as <-. unfold Repo.outer_handler.
  destruct (contains _ "docker"); (eexists; split; [reflexivity|]); eexists; [right|left]; reflexivity.
Qed.

(** Witness: an empty URL is answered with a 500. *)
Lemma analyze_repo_errors_are_500_witness :
  Repo.analyze_repo (fun _ => Ok "c") (fun _ => Ok []) (fun _ _ => Ok []) (fun _ _ => Ok "")
    (fun _ _ _ _ => Ok "") (fun _ => Ok "") (fun _ => Ok tt) (Ok tt) (Ok tt) [] "  "
  = Raise (http_exception 500 "Unexpected error: 400: No repository URL provided")
  /\ exists detail, http_exception 500 "Unexpected error: 400: No repository URL provided"
                    = http_exception 500 detail
     /\ (exists m, detail = ("Unexpected error: " ++ m)%string
                   \/ detail = ("Docker error: " ++ m)%string).
Proof.
  assert (E : Repo.analyze_repo (fun _ => Ok "c") (fun _ => Ok []) (fun _ _ => Ok [])
    (fun _ _ => Ok "") (fun _ _ _ _ => Ok "") (fun _ => Ok "") (fun _ => Ok tt) (Ok tt) (Ok tt) [] "  "
    = Raise (http_exception 500 "Unexpected error: 400: No repository URL provided"))
    by reflexivity.
  split; [exact E|]. exact (analyze_repo_errors_are_500 _ _ _ _ _ _ _ _ _ _ _ _ E).
Defined.

(** A failed clone is reported through the outer handler. *)
Lemma analyze_repo_clone_failure llm_detect static_py static_c exec synth read_file clone
    make_tmpdir cleanup_tmpdir walk (repo_url url : string) (e : pyexc) :
  Repo.normalize_repo_url repo_url = Ok url -> make_tmpdir = Ok tt -> clone url = Raise e ->
  cleanup_tmpdir = Ok tt ->
  Repo.analyze_repo llm_detect static_py static_c exec synth read_file clone make_tmpdir
    cleanup_tmpdir walk repo_url
  = Raise (Repo.outer_handler (http_exception 400 ("Failed to clone repo: " ++ exc_msg e)%string)).
Proof.
  intros Hn Hm Hc Hd. unfold Repo.analyze_repo. rewrite Hn. cbn [exc_bind]. rewrite Hm.
  cbn [exc_bind]. rewrite Hc, Hd. reflexivity.
Qed.

(* ------------------------------------------------------------------ *)
(** ** Keys of the repository results *)

Lemma dict_set_nodup {V} (k : string) (v : V) (d : dict V) :
  NoDup (map fst d) -> NoDup (map fst (dict_set k v d)).
Proof.
  induction d as [|[k' v'] d IH]; simpl; intros H; [repeat constructor; simpl; tauto|].
  inversion H as [|? ? Hn Hd]; subst.
  destruct (String.eqb_spec k k'); simpl.
  - subst. constructor; assumption.
  - constructor; [|now apply IH].
    intros Hin. apply dict_set_keys in Hin as [->|Hin]; [congruence|contradiction].
Qed.

Section RepoKeys.

Variable llm_detect : string -> Exc string.
Variable static_py : string -> Exc (dict string).
Variable static_c : string -> bool -> Exc (dict string).
Variable exec : string -> string -> Exc string.
Variable synth : string -> dict string -> string -> string -> Exc string.
Variable read_file : string -> Exc string.

Lemma repo_step_keys (acc : dict entry) (w : walk_file) :
  NoDup (map fst acc) ->
  let acc' := Endpoints.repo_step llm_detect static_py static_c exec synth read_file acc w in
  NoDup (map fst acc')
  /\ forall k, In k (map fst acc') ->
     In k (map fst acc) \/ (is_supported w = true /\ rel_path w = k).
Proof.
  intros Hacc. cbv zeta. unfold Endpoints.repo_step.
  destruct (is_supported w) eqn:Hs; [|split; auto].
  assert (Step : forall v, NoDup (map fst (dict_set (rel_path w) v acc))
            /\ forall k, In k (map fst (dict_set (rel_path w) v acc)) ->
               In k (map fst acc) \/ (true = true /\ rel_path w = k)).
  { intros v. split; [now apply dict_set_nodup|]. intros k Hk.
    apply dict_set_keys in Hk as [->|Hk]; [right; auto|left; exact Hk]. }
  destruct (Endpoints.file_body _ _ _ _ _ _ (rel_path w)) as [[a|]|e];
    [apply Step | split; auto | apply Step].
Qed.

Lemma repo_fold_keys_supported (walk : list walk_file) (acc : dict entry) :
  NoDup (map fst acc) ->
  NoDup (map fst (fold_left (Endpoints.repo_step llm_detect static_py static_c exec synth read_file)
                    walk acc))
  /\ forall k, In k (map fst (fold_left (Endpoints.repo_step llm_detect static_py static_c exec
                                          synth read_file) walk acc)) ->
     In k (map fst acc) \/ exists w, In w walk /\ is_supported w = true /\ rel_path w = k.
Proof.
  revert acc. induction walk as [|w walk IH]; intros acc Hacc; simpl; [split; auto|].
  destruct (repo_step_keys acc w Hacc) as [N1 K1].
  destruct (IH _ N1) as [N2 K2]. split; [exact N2|]. intros k Hk.
  destruct (K2 k Hk) as [H|(w' & ? & ? & ?)]; [|right; exists w'; simpl; auto].
  destruct (K1 k H) as [H'|[? ?]]; [left; exact H'|right; exists w; simpl; auto].
Qed.

(** X3: the repository results hold each path at most once, and only
    paths of walked files whose extension is supported (compared after
    lower-casing). *)
Theorem repo_results_keys (walk : list walk_file) :
  let res := Endpoints.repo_results llm_detect static_py static_c exec synth read_file walk in
  NoDup (map fst res)
  /\ forall k, In k (map fst res) ->
     exists w, In w walk /\ is_supported w = true /\ rel_path w = k.
Proof.
  cbv zeta. unfold Endpoints.repo_results.
  destruct (repo_fold_keys_supported walk [] (NoDup_nil _)) as [N K].
  split; [exact N|]. intros k Hk. destruct (K k Hk) as [[]|H]; exact H.
Qed.

End RepoKeys.

(* ------------------------------------------------------------------ *)
(** ** Language detection with the model *)

Lemma detect_regex_range (code : string) :
  exists l, Detect.detect_language_with_regex code = Ok l /\ In l ["python"; "java"; "cpp"; "c"].
Proof.
  pose proof detect_markers_valid as H.
  apply forallb_app_l in H as [Hpy H]. apply forallb_app_l in H as [Hjv H].
  apply forallb_app_l in H as [Hcp Hc].
  unfold Detect.detect_language_with_regex.
  rewrite (search_any_valid _ code Hpy), (search_any_valid _ code Hjv),
          (search_any_valid _ code Hcp), (search_any_valid _ code Hc).
  cbn [exc_bind].
  destruct (existsb _ Detect.python_markers); [eexists; split; [reflexivity|simpl; tauto]|].
  cbn [exc_bind].
  destruct (existsb _ Detect.java_markers); [eexists; split; [reflexivity|simpl; tauto]|].
  cbn [exc_bind].
  destruct (existsb _ Detect.cpp_markers); [eexists; split; [reflexivity|simpl; tauto]|].
  cbn [exc_bind].
  destruct (existsb _ Detect.c_markers); (eexists; split; [reflexivity|simpl; tauto]).
Qed.

(** X4: language detection always yields one of python, java, c, cpp or
    unknown, and never raises; it yields unknown only when the model
    answered, and its answer, stripped and lower-cased, is none of the
    four names. *)
Theorem detect_language_with_llm_range (llm_detect : string -> Exc string) (code : string) :
  exists l, Endpoints.detect_language_with_llm llm_detect code = Ok l
  /\ In l ["python"; "java"; "c"; "cpp"; "unknown"]
  /\ (l = "unknown" -> exists response, llm_detect code = Ok response
        /\ ~ In (py_lower (py_strip response)) ["python"; "java"; "c"; "cpp"]).
Proof.
  unfold Endpoints.detect_language_with_llm.
  destruct (llm_detect code) as [response|e].
  - set (l := py_lower (py_strip response)).
    destruct (existsb (String.eqb l) ["python"; "java"; "c"; "cpp"]) eqn:E.
    + exists l. split; [reflexivity|]. split.
      * apply existsb_exists in E as (x & Hx & Hl). apply String.eqb_eq in Hl. subst.
        simpl in Hx |- *. tauto.
      * intros Hu. exfalso. rewrite Hu in E. discriminate.
    + exists "unknown". split; [reflexivity|]. split; [simpl; tauto|].
      intros _. exists response. split; [reflexivity|]. intros Hin.
      assert (existsb (String.eqb l) ["python"; "java"; "c"; "cpp"] = true)
        by (apply existsb_exists; exists l; split; [exact Hin|apply String.eqb_refl]).
      congruence.
  - destruct (detect_regex_range code) as (l & E & Hl). exists l. split; [exact E|]. split.
    + simpl in Hl |- *. tauto.
    + intros ->. simpl in Hl. exfalso. intuition discriminate.
Qed.

(** X5: when the model cannot be reached, a non-blank submission is never
    rejected as undetectable: the regex detector names a language, the
    handler goes on to static analysis, and a response it returns carries
    that language. *)
Theorem analyze_llm_unavailable llm_detect static_py static_c exec synth (code : string)
    (tr : list stage) (e : pyexc) :
  llm_detect code = Raise e -> strip_is_empty code = false ->
  exists l, Detect.detect_language_with_regex code = Ok l
  /\ In l ["python"; "java"; "cpp"; "c"]
  /\ (exists rest, snd (Endpoints.analyze llm_detect static_py static_c exec synth code tr)
                   = tr ++ SDetect :: SStatic :: rest)
  /\ (forall a, fst (Endpoints.analyze llm_detect static_py static_c exec synth code tr) = Ok a ->
      a_language a = l).
Proof.
  intros He Hb. destruct (detect_regex_range code) as (l & El & Hl).
  exists l. split; [exact El|]. split; [exact Hl|].
  assert (Hu : String.eqb l "unknown" = false)
    by (simpl in Hl; intuition (subst; reflexivity)).
  unfold Endpoints.analyze. rewrite Hb. unfold st_bind at 1, Endpoints.stage_call at 1.
  unfold Endpoints.detect_language_with_llm. rewrite He, El, Hu.
  unfold st_bind, Endpoints.stage_call, st_ret.
  destruct (Endpoints.issues_for _ _ code l) as [i|x];
    [destruct (exec code l) as [r|x]; [destruct (synth code i r l) as [s|x]|]|];
    (split; [eexists; simpl; rewrite <- !app_assoc; reflexivity|]);
    simpl; intros a Ha; rewrite ?Hu in Ha; simpl in Ha; try discriminate; try (injection Ha as <-; reflexivity).
Qed.

(** Witness: the model is down and the code is C. *)
Lemma analyze_llm_unavailable_witness :
  exists l, Detect.detect_language_with_regex "#include <stdio.h>" = Ok l
  /\ In l ["python"; "java"; "cpp"; "c"]
  /\ (exists rest, snd (Endpoints.analyze (fun _ => Raise (mk_exc "HfHubHTTPError" "503"))
                          (fun _ => Ok []) (fun _ _ => Ok []) (fun _ _ => Ok "")
                          (fun _ _ _ _ => Ok "") "#include <stdio.h>" [])
                   = [] ++ SDetect :: SStatic :: rest)
  /\ (forall a, fst (Endpoints.analyze (fun _ => Raise (mk_exc "HfHubHTTPError" "503"))
                       (fun _ => Ok []) (fun _ _ => Ok []) (fun _ _ => Ok "")
                       (fun _ _ _ _ => Ok "") "#include <stdio.h>" []) = Ok a ->
      a_language a = l).
Proof.
  apply (analyze_llm_unavailable (fun _ => Raise (mk_exc "HfHubHTTPError" "503"))
           (fun _ => Ok []) (fun _ _ => Ok []) (fun _ _ => Ok "") (fun _ _ _ _ => Ok "")
           "#include <stdio.h>" [] (mk_exc "HfHubHTTPError" "503")); reflexivity.
Defined.

(* ------------------------------------------------------------------ *)
(** ** The fallback analysis *)

(** Case analysis on the conditions of a computed string, keeping the
    final emptiness test. *)
Ltac split_conds :=
  repeat match goal with
         | |- context [if ?b then _ else _] =>
             lazymatch b with String.eqb _ _ => fail | _ => destruct b end
         | |- context [match ?l with [] => _ | _ :: _ => _ end] => destruct l
         end.

(** X6: the fallback analysis never answers its default "No issues
    detected by static analysis": every branch has already written a
    header (or the unsupported-language sentence) into the result. *)
Theorem run_code_fallback_default_unreachable (ast_parse : string -> Exc unit)
    (code language r : string) :
  Docker.run_code_fallback ast_parse code language = Ok r ->
  r <> "No issues detected by static analysis"%string.
Proof.
  unfold Docker.run_code_fallback.
  destruct (String.eqb language "python").
  - destruct (ast_parse code) as [[]|e]; [|destruct (Docker.is_syntax_error e)];
      cbn [exc_bind]; intros H; try discriminate; injection H as <-;
      split_conds; simpl; discriminate.
  - destruct (existsb (String.eqb language) ["c"; "cpp"]) eqn:Ec.
    + assert (Hl : language = "c" \/ language = "cpp").
      { simpl in Ec. destruct (String.eqb_spec language "c"); [now left|].
        destruct (String.eqb_spec language "cpp"); [now right|discriminate]. }
      rewrite (search_any_valid Conceptual.null_deref code) by (vm_compute; reflexivity).
      rewrite (findall_valid Conceptual.uninit _ _) by (vm_compute; reflexivity).
      rewrite (search_valid Conceptual.unsafe_copy _) by (vm_compute; reflexivity).
      rewrite (search_valid Conceptual.bounded_copy _) by (vm_compute; reflexivity).
      rewrite (search_valid Conceptual.infinite_for _) by (vm_compute; reflexivity).
      cbn [exc_bind]. destruct (search_l Conceptual.unsafe_copy _); cbn [exc_bind];
        intros H; injection H as <-;
        (destruct Hl as [->| ->];
         split_conds; simpl; discriminate).
    + destruct (String.eqb language "java").
      * destruct (contains code "new" && contains code "= null");
          [cbn [exc_bind]; intros H; discriminate|].
        cbn [exc_bind]. intros H; injection H as <-.
        split_conds; simpl; discriminate.
      * cbn [exc_bind]. intros H; injection H as <-. simpl. discriminate.
Qed.

(** X7: the Java fallback never reports "Object created and then set to
    null": when the code contains both [new] and [= null] it raises
    [re.error] (the pattern refers to a group it does not have), and
    otherwise it returns the header, followed by the [.equals(null)]
    warning when the code contains that text. *)
Theorem run_code_fallback_java (ast_parse : string -> Exc unit) (code : string) :
  Docker.run_code_fallback ast_parse code "java"
  = if contains code "new" && contains code "= null" then Raise compile_error
    else Ok ("Java code analysis (without execution):" ++ nl
             ++ (if contains code ".equals(null)"
                 then Docker.warn "Potential NullPointerException: calling .equals() on null"
                 else ""))%string.
Proof.
  unfold Docker.run_code_fallback. cbn [String.eqb Ascii.eqb Bool.eqb existsb orb].
  destruct (contains code "new" && contains code "= null"); [reflexivity|].
  cbn [exc_bind]. f_equal.
  destruct (contains code ".equals(null)"); reflexivity.
Qed.

Lemma string_app_empty_l (a b : string) : (a ++ b)%string = ""%string -> a = ""%string.
Proof. destruct a; [reflexivity|discriminate]. Qed.

(** The warning lines the C/C++ fallback appends, one per finding. *)
Definition warnings_after (header : string) (found : list string) : string :=
  fold_left (fun acc m => (acc ++ Docker.warn m)%string) found header.

(** X8: the C/C++ fallback reports exactly the findings of the conceptual
    scan that come first in its order (NULL dereference, malloc without
    free, uninitialised variables, unbounded copy, missing loop
    condition), one warning line each after the header, and drops the
    rest of the scan: the dangling-pointer and out-of-bounds findings. *)
Theorem run_code_fallback_c_conceptual (ast_parse : string -> Exc unit) (code language : string) :
  In language ["c"; "cpp"] ->
  exists found rest,
    Conceptual.conceptual_errors code = Ok (found ++ rest)
    /\ Docker.run_code_fallback ast_parse code language
       = Ok (warnings_after (py_upper language ++ " code analysis (without execution):" ++ nl)
                            found)%string
    /\ (forall m, In m rest ->
          m = Conceptual.msg_dangling \/ exists n i s, m = Conceptual.msg_oob n i s)
    /\ (forall m, In m found ->
          m <> Conceptual.msg_dangling /\ forall n i s, m <> Conceptual.msg_oob n i s).
Proof.
  intros Hl.
  unfold Conceptual.conceptual_errors, Docker.run_code_fallback.
  assert (Hc : existsb (String.eqb language) ["c"; "cpp"] = true
               /\ String.eqb language "python" = false)
    by (destruct Hl as [<-|[<-|[]]]; split; reflexivity).
  destruct Hc as (-> & ->).
  rewrite (search_any_valid Conceptual.null_deref code) by (vm_compute; reflexivity).
  rewrite (findall_valid Conceptual.uninit _ _) by (vm_compute; reflexivity).
  rewrite (search_valid Conceptual.unsafe_copy _) by (vm_compute; reflexivity).
  rewrite (search_valid Conceptual.bounded_copy _) by (vm_compute; reflexivity).
  rewrite (search_valid Conceptual.infinite_for _) by (vm_compute; reflexivity).
  rewrite (search_any_valid Conceptual.dangling code) by (vm_compute; reflexivity).
  rewrite (findall_valid Conceptual.array_decl _ _) by (vm_compute; reflexivity).
  cbn [exc_bind Conceptual.append_if].
  set (cs := chars code).
  set (decls := findall_l Conceptual.array_decl _ _ _).
  set (H0 := (py_upper language ++ " code analysis (without execution):" ++ nl)%string).
  assert (H0ne : H0 <> ""%string)
    by (destruct Hl as [<-|[<-|[]]]; unfold H0; simpl; discriminate).
  clearbody H0.
  destruct (findall_l Conceptual.uninit _ _ _) as [|u uv];
  destruct (existsb (fun r => search_l r cs) Conceptual.null_deref);
  destruct (contains code "malloc" && negb (contains code "free"));
  destruct (search_l Conceptual.unsafe_copy cs);
  destruct (search_l Conceptual.bounded_copy cs);
  destruct (search_l Conceptual.infinite_for cs);
  destruct (existsb (fun r => search_l r cs) Conceptual.dangling) eqn:Ed;
  cbn [exc_bind negb andb Conceptual.append_if app];
  match goal with |- exists _ _, Conceptual.array_checks code decls ?acc = _ /\ _ =>
    destruct (array_checks_shape code decls acc) as (O & -> & HO);
    lazymatch type of Ed with
    | _ = true => exists (removelast acc), (Conceptual.msg_dangling :: O)
    | _ = false => exists acc, O
    end
  end;
  cbn [removelast];
  (split; [reflexivity|]);
  (split; [ unfold warnings_after; cbn [fold_left];
            match goal with |- Ok (if String.eqb ?x "" then _ else _) = _ =>
              destruct (String.eqb_spec x "") as [E|_]; [exfalso|reflexivity] end;
            repeat apply string_app_empty_l in E; contradiction |]);
  (split; [intros m Hm; cbn [In] in Hm;
           first [ destruct Hm as [<-|Hm]; [now left|right; now apply HO]
                 | right; now apply HO ] |]);
  intros m Hm; cbn [In] in Hm;
  repeat match goal with
         | Hm : _ \/ _ |- _ => destruct Hm as [<-|Hm]
         | Hm : False |- _ => destruct Hm
         end;
  unfold Conceptual.msg_null, Conceptual.msg_leak, Conceptual.msg_uninit,
    Conceptual.msg_overflow, Conceptual.msg_loop, Conceptual.msg_dangling, Conceptual.msg_oob;
  (split; [simpl; discriminate | intros n i s; simpl; discriminate]).
Qed.

(* ------------------------------------------------------------------ *)
(** ** The temporary file of the Python analysis *)

(** The name [NamedTemporaryFile] gives its [n]-th file. *)
Definition tmp_name (n : nat) (suffix : string) : string :=
  ("/tmp/tmp" ++ py_str_nat n ++ suffix)%string.

Lemma named_temp_eq suffix s :
  Tools.named_temp suffix s
  = (Ok (tmp_name (tmp_next s) suffix),
     mk_fs (tmp_name (tmp_next s) suffix :: files s) (S (tmp_next s))).
Proof. reflexivity. Qed.

Lemma unlink_in p t :
  In p (files t) ->
  Tools.unlink p t = (Ok tt, mk_fs (filter (fun q => negb (String.eqb p q)) (files t)) (tmp_next t)).
Proof.
  intros H. unfold Tools.unlink.
  replace (existsb (String.eqb p) (files t)) with true; [reflexivity|].
  symmetry. apply existsb_exists. exists p. split; [exact H|apply String.eqb_refl].
Qed.

Lemma filter_neq_not_in p L : ~ In p (filter (fun q => negb (String.eqb p q)) L).
Proof.
  intros H. apply filter_In in H as [_ H]. rewrite String.eqb_refl in H. discriminate H.
Qed.

(** The state after each step of [run_static_analysis]: the temporary
    file written, then each tool's [getoutput] run through the shell. *)
Definition after_write (s : fs) : fs :=
  mk_fs (tmp_name (tmp_next s) ".py" :: files s) (S (tmp_next s)).

(** What [run_static_analysis] records for one tool, given what the
    shell printed or raised. *)
Definition tool_value (o : Exc string) : string :=
  match o with
  | Ok o => let o := drop_trailing_nl o in if String.eqb o "" then "No issues" else py_strip o
  | Raise e => exc_msg e
  end.

Lemma getoutput_try shell cmd (t : fs) :
  st_try (o <-- Tools.getoutput shell cmd ;;;
          st_ret (if String.eqb o "" then "No issues" else py_strip o))
         (fun e => st_ret (exc_msg e)) t
  = (Ok (tool_value (fst (shell cmd t))), snd (shell cmd t)).
Proof.
  unfold st_try, st_bind, Tools.getoutput, st_bind, st_ret.
  destruct (shell cmd t) as [[o|e] t']; reflexivity.
Qed.

(** The whole run: the two tools, then [os.unlink]. *)
Lemma run_static_analysis_steps shell code s :
  let p := tmp_name (tmp_next s) ".py" in
  let s1 := snd (shell ("flake8 " ++ p)%string (after_write s)) in
  let s2 := snd (shell ("mypy " ++ p)%string s1) in
  Tools.run_static_analysis shell code s
  = match Tools.unlink p s2 with
    | (Ok _, s3) =>
        (Ok [("flake8", tool_value (fst (shell ("flake8 " ++ p)%string (after_write s))));
             ("mypy", tool_value (fst (shell ("mypy " ++ p)%string s1)))], s3)
    | (Raise e, s3) => (Raise e, s3)
    end.
Proof.
  cbv zeta. unfold Tools.run_static_analysis.
  unfold st_bind at 1. rewrite named_temp_eq. cbv beta iota zeta. fold (after_write s).
  unfold st_bind at 1. rewrite getoutput_try. cbv beta iota zeta.
  unfold st_bind at 1. rewrite getoutput_try. cbv beta iota zeta.
  unfold st_bind, st_ret. destruct (Tools.unlink _ _) as [[u|e] s3]; reflexivity.
Qed.

(** X10: whatever flake8 and mypy print, raise or do to the files, the
    Python analysis either returns the keys flake8 and mypy, in that
    order, with no file left at its temporary path, or raises
    FileNotFoundError for that path.  When the two commands remove no
    file, it always returns. *)
Theorem run_static_analysis_outcome (shell : string -> ST fs string) (code : string) (s : fs) :
  let p := tmp_name (tmp_next s) ".py" in
  match Tools.run_static_analysis shell code s with
  | (Ok res, s') => map fst res = ["flake8"; "mypy"] /\ ~ In p (files s')
  | (Raise e, _) => e = mk_exc "FileNotFoundError" ("No such file or directory: " ++ p)
  end
  /\ ((forall cmd t f, In f (files t) -> In f (files (snd (shell cmd t)))) ->
      exists res s', Tools.run_static_analysis shell code s = (Ok res, s')).
Proof.
  cbv zeta. rewrite run_static_analysis_steps. cbv zeta.
  set (p := tmp_name (tmp_next s) ".py").
  set (s2 := snd (shell _ (snd (shell _ (after_write s))))).
  split.
  - unfold Tools.unlink.
    destruct (existsb (String.eqb p) (files s2)); cbn.
    + split; [reflexivity|apply filter_neq_not_in].
    + reflexivity.
  - intros Hk. rewrite (unlink_in p s2).
    + eexists _, _. reflexivity.
    + unfold s2. apply Hk, Hk. left. reflexivity.
Qed.

(** Witness: mypy leaves its cache directory behind, flake8 prints
    nothing; a shell whose first command deletes the temporary file makes
    the final [os.unlink] raise. *)
Lemma run_static_analysis_outcome_witness :
  let shell := fun cmd (t : fs) =>
    if prefixb (chars "mypy") (chars cmd)
    then (@Ok string ("Success: no issues found in 1 source file" ++ nl)%string,
          mk_fs (".mypy_cache" :: files t) (tmp_next t))
    else (Ok "", t) in
  (forall cmd t f, In f (files t) -> In f (files (snd (shell cmd t))))
  /\ (exists res s', Tools.run_static_analysis shell "print(1)" (mk_fs ["/home/u/app.py"] 3)
                     = (Ok res, s'))
  /\ Tools.run_static_analysis (fun _ t => (Ok "", mk_fs [] (tmp_next t))) "print(1)" (mk_fs [] 0)
     = (Raise (mk_exc "FileNotFoundError" "No such file or directory: /tmp/tmp0.py"), mk_fs [] 1).
Proof.
  intros shell.
  assert (Hk : forall cmd t f, In f (files t) -> In f (files (snd (shell cmd t)))).
  { intros cmd t f H. unfold shell. destruct (prefixb _ _); [right|]; exact H. }
  split; [exact Hk|]. split.
  - exact (proj2 (run_static_analysis_outcome shell "print(1)" (mk_fs ["/home/u/app.py"] 3)) Hk).
  - vm_compute. reflexivity.
Defined.

(* ------------------------------------------------------------------ *)
(** ** The fallback report of [ai_fix_agent] *)

Lemma string_app_nil_r (a : string) : (a ++ "")%string = a.
Proof. induction a as [|c a IH]; simpl; [reflexivity|now rewrite IH]. Qed.

Lemma join_head sep x r : exists u, join sep (x :: r) = (x ++ u)%string.
Proof. destruct r; simpl; [exists ""; symmetry; apply string_app_nil_r | eauto]. Qed.

Lemma conceptual_errors_potential code errs :
  Conceptual.conceptual_errors code = Ok errs ->
  forall m, In m errs -> exists u, m = ("Potential" ++ u)%string.
Proof.
  destruct (conceptual_errors_shape code) as (U & O & E & HU & HO). cbv zeta in E.
  rewrite E. intros H. injection H as <-. intros m Hm.
  repeat (apply in_app_iff in Hm as [Hm|Hm]);
  repeat match goal with
         | H : In _ (if ?b then _ else _) |- _ => destruct b
         | H : In _ [] |- _ => destruct H
         | H : In _ [_] |- _ => destruct H as [<-|[]]; eexists; reflexivity
         end.
  - destruct (HU m Hm) as [y ->]. eexists; reflexivity.
  - destruct (HO m Hm) as (n & i & s & ->). eexists; reflexivity.
Qed.

Lemma run_c_static_analysis_conceptual_entry avail proc os code is_cpp s res s' :
  Tools.run_c_static_analysis avail proc os code is_cpp s = (Ok res, s') ->
  exists v, Conceptual.conceptual_report code = Ok v
            /\ dict_get "conceptual_errors" res = Some v.
Proof.
  unfold Tools.run_c_static_analysis. intros H. st_ok_inv H.
  match goal with H0 : st_lift _ _ = _ |- _ => unfold st_lift in H0; injection H0 as E _ end.
  unfold st_ret in H. injection H as <- _.
  eexists. split; [exact E|reflexivity].
Qed.

(** The runtime section of the fallback report, as [fallback_response]
    appends it. *)
Definition runtime_section (runtime : string) : string :=
  if negb (String.eqb runtime "") && negb (String.eqb runtime "No output")
     && negb (contains runtime "successfully")
  then Agent.section "RUNTIME ISSUES:" runtime else "".

(** X11: when the model fails on C or C++ code analysed by
    [run_c_static_analysis], [ai_fix_agent] still answers: the fallback
    report opens with its header, has a CONCEPTUAL ISSUES section exactly
    when the conceptual scan found something (listing the findings one
    per line), then the runtime section when the runtime output is
    non-empty, not "No output" and without "successfully", then the
    general and the C-specific improvement lists. *)
Theorem ai_fix_agent_c_fallback llm_fix avail proc os code is_cpp s res s' runtime language e :
  In language ["c"; "cpp"] ->
  Tools.run_c_static_analysis avail proc os code is_cpp s = (Ok res, s') ->
  llm_fix code res runtime language = Raise e ->
  exists errs, Conceptual.conceptual_errors code = Ok errs
  /\ Agent.ai_fix_agent llm_fix code res runtime language
     = Ok (Agent.fallback_header
           ++ match errs with
              | [] => ""
              | _ => Agent.section "CONCEPTUAL ISSUES:" (join nl errs)
              end
           ++ runtime_section runtime ++ Agent.improvements ++ Agent.c_improvements)%string.
Proof.
  intros Hl Hr He.
  destruct (run_c_static_analysis_conceptual_entry _ _ _ _ _ _ _ _ Hr) as (v & Ev & Gv).
  unfold Conceptual.conceptual_report in Ev.
  destruct (Conceptual.conceptual_errors code) as [errs|x] eqn:Ee; [|discriminate].
  cbn [exc_bind] in Ev. injection Ev as Ev.
  exists errs. split; [reflexivity|].
  unfold Agent.ai_fix_agent. rewrite He. f_equal.
  unfold Agent.fallback_response, Agent.reported.
  assert (Hc : Agent.is_c_lang language = true /\ String.eqb language "python" = false)
    by (destruct Hl as [<-|[<-|[]]]; split; reflexivity).
  destruct Hc as [-> ->]. rewrite Gv.
  replace (String.eqb v Conceptual.msg_none) with (match errs with [] => true | _ => false end).
  2:{ subst v. destruct errs as [|x r]; [symmetry; apply String.eqb_refl|].
      symmetry. apply String.eqb_neq.
      destruct (conceptual_errors_potential _ _ Ee x (or_introl eq_refl)) as [u ->].
      destruct (join_head nl ("Potential" ++ u)%string r) as [w ->].
      unfold Conceptual.msg_none. simpl. discriminate. }
  unfold runtime_section.
  destruct errs as [|x r]; [|subst v];
  destruct (negb (String.eqb runtime "") && negb (String.eqb runtime "No output")
            && negb (contains runtime "successfully"));
  cbn [append]; rewrite ?string_app_assoc; reflexivity.
Qed.

(** Witness: an endless loop, no tools installed, the model unreachable. *)
Lemma ai_fix_agent_c_fallback_witness :
  In "c" ["c"; "cpp"]
  /\ Tools.run_c_static_analysis (fun _ => false) (fun _ => PFail (mk_exc "OSError" ""))
       "posix" "int main(){for(;;);}" false (mk_fs [] 0)
     = (Ok [("conceptual_errors", Conceptual.msg_loop);
            ("cppcheck", "Tool not available (cppcheck is not installed or not in PATH)");
            ("clang_analyze", "Tool not available (clang/clang++ is not installed or not in PATH)");
            ("memory_analysis", "Tool not available (valgrind is not installed or not in PATH)")],
        mk_fs [] 0)
  /\ (fun _ _ _ _ => Raise (mk_exc "HfHubHTTPError" "503")) "int main(){for(;;);}"
       [("conceptual_errors", Conceptual.msg_loop);
        ("cppcheck", "Tool not available (cppcheck is not installed or not in PATH)");
        ("clang_analyze", "Tool not available (clang/clang++ is not installed or not in PATH)");
        ("memory_analysis", "Tool not available (valgrind is not installed or not in PATH)")]
       "Runtime error: timeout" "c" = @Raise string (mk_exc "HfHubHTTPError" "503")
  /\ exists errs, Conceptual.conceptual_errors "int main(){for(;;);}" = Ok errs
  /\ Agent.ai_fix_agent (fun _ _ _ _ => Raise (mk_exc "HfHubHTTPError" "503"))
       "int main(){for(;;);}"
       [("conceptual_errors", Conceptual.msg_loop);
        ("cppcheck", "Tool not available (cppcheck is not installed or not in PATH)");
        ("clang_analyze", "Tool not available (clang/clang++ is not installed or not in PATH)");
        ("memory_analysis", "Tool not available (valgrind is not installed or not in PATH)")]
       "Runtime error: timeout" "c"
     = Ok (Agent.fallback_header
           ++ match errs with
              | [] => ""
              | _ => Agent.section "CONCEPTUAL ISSUES:" (join nl errs)
              end
           ++ runtime_section "Runtime error: timeout" ++ Agent.improvements
           ++ Agent.c_improvements)%string.
Proof.
  assert (H1 : In "c" ["c"; "cpp"]) by (left; reflexivity).
  assert (H2 : Tools.run_c_static_analysis (fun _ => false) (fun _ => PFail (mk_exc "OSError" ""))
       "posix" "int main(){for(;;);}" false (mk_fs [] 0)
     = (Ok [("conceptual_errors", Conceptual.msg_loop);
            ("cppcheck", "Tool not available (cppcheck is not installed or not in PATH)");
            ("clang_analyze", "Tool not available (clang/clang++ is not installed or not in PATH)");
            ("memory_analysis", "Tool not available (valgrind is not installed or not in PATH)")],
        mk_fs [] 0)) by (vm_compute; reflexivity).
  split; [exact H1|]. split; [exact H2|]. split; [reflexivity|].
  exact (ai_fix_agent_c_fallback (fun _ _ _ _ => Raise (mk_exc "HfHubHTTPError" "503")) _ _ _ _ _ _
           _ _ "Runtime error: timeout" "c" (mk_exc "HfHubHTTPError" "503") H1 H2 eq_refl).
Defined.

(* ------------------------------------------------------------------ *)
(** ** Bounded copies in the conceptual scan *)

Lemma bounded_copy_at (w : string) (rest : list ascii) :
  In w ["strncpy"; "strncat"] ->
  match_at Conceptual.bounded_copy (chars w ++ rest) <> None.
Proof.
  intros [<-|[<-|[]]]; unfold match_at, fuel_for; cbn; discriminate.
Qed.

Lemma bounded_copy_found (code : string) :
  contains code "strncpy" || contains code "strncat" = true ->
  search_l Conceptual.bounded_copy (chars code) = true.
Proof.
  intros H. apply orb_true_iff in H.
  assert (Hw : exists w, In w ["strncpy"; "strncat"] /\ contains code w = true)
    by (destruct H as [H|H]; [exists "strncpy"|exists "strncat"]; simpl; auto).
  destruct Hw as (w & Hw & Hc). unfold contains in Hc.
  apply contains_l_sound in Hc as (pre & t & -> & P).
  rewrite (prefixb_app _ _ P). apply search_l_complete. now apply bounded_copy_at.
Qed.

(** X12: one occurrence of [strncpy] or [strncat] anywhere in the text,
    even in a comment, silences the conceptual scan's buffer-overflow
    finding for every [strcpy]/[strcat] call of the file. *)
Theorem conceptual_errors_strn_silences_overflow (code : string) (errs : list string) :
  contains code "strncpy" || contains code "strncat" = true ->
  Conceptual.conceptual_errors code = Ok errs ->
  ~ In Conceptual.msg_overflow errs.
Proof.
  intros Hb.
  destruct (conceptual_errors_shape code) as (U & O & E & HU & HO). cbv zeta in E.
  rewrite E, (bounded_copy_found code Hb), andb_false_r. intros H. injection H as <-.
  intros Hm.
  repeat (apply in_app_iff in Hm as [Hm|Hm]);
  repeat match goal with
         | H : In _ (if ?b then _ else _) |- _ => destruct b
         | H : In _ [] |- _ => destruct H
         | H : In _ [_] |- _ => destruct H as [H|[]]; revert H;
             unfold Conceptual.msg_null, Conceptual.msg_leak, Conceptual.msg_overflow,
               Conceptual.msg_loop, Conceptual.msg_dangling; discriminate
         end.
  - destruct (HU _ Hm) as [y Hy]. revert Hy.
    unfold Conceptual.msg_uninit, Conceptual.msg_overflow. simpl. discriminate.
  - destruct (HO _ Hm) as (n & i & s & Hs). revert Hs.
    unfold Conceptual.msg_oob, Conceptual.msg_overflow. simpl. discriminate.
Qed.

(** Witness: an unbounded copy next to a comment naming [strncpy]; the
    same copy alone is reported. *)
Lemma conceptual_errors_strn_silences_overflow_witness :
  contains "strcpy(dst, src); /* strncpy */" "strncpy"
    || contains "strcpy(dst, src); /* strncpy */" "strncat" = true
  /\ Conceptual.conceptual_errors "strcpy(dst, src); /* strncpy */" = Ok []
  /\ ~ In Conceptual.msg_overflow []
  /\ Conceptual.conceptual_errors "strcpy(dst, src);" = Ok [Conceptual.msg_overflow].
Proof.
  assert (H1 : contains "strcpy(dst, src); /* strncpy */" "strncpy"
               || contains "strcpy(dst, src); /* strncpy */" "strncat" = true)
    by (vm_compute; reflexivity).
  assert (H2 : Conceptual.conceptual_errors "strcpy(dst, src); /* strncpy */" = Ok [])
    by (vm_compute; reflexivity).
  split; [exact H1|]. split; [exact H2|]. split.
  - exact (conceptual_errors_strn_silences_overflow _ [] H1 H2).
  - vm_compute. reflexivity.
Defined.

(* ------------------------------------------------------------------ *)
(** ** When the execution stage raises *)

Lemma run_code_fallback_raises (ast_parse : string -> Exc unit) (code language : string) (e : pyexc) :
  Docker.run_code_fallback ast_parse code language = Raise e ->
  (language = "java" /\ e = compile_error
   /\ contains code "new" && contains code "= null" = true)
  \/ (language = "python" /\ ast_parse code = Raise e /\ Docker.is_syntax_error e = false).
Proof.
  unfold Docker.run_code_fallback.
  destruct (String.eqb_spec language "python") as [->|Hpy].
  - destruct (ast_parse code) as [[]|x] eqn:Ea; cbn [exc_bind]; [discriminate|].
    destruct (Docker.is_syntax_error x) eqn:Es; cbn [exc_bind]; [discriminate|].
    intros H. injection H as <-. right. auto.
  - destruct (existsb (String.eqb language) ["c"; "cpp"]).
    + rewrite (search_any_valid Conceptual.null_deref code) by (vm_compute; reflexivity).
      rewrite (findall_valid Conceptual.uninit _ _) by (vm_compute; reflexivity).
      rewrite (search_valid Conceptual.unsafe_copy _) by (vm_compute; reflexivity).
      rewrite (search_valid Conceptual.bounded_copy _) by (vm_compute; reflexivity).
      rewrite (search_valid Conceptual.infinite_for _) by (vm_compute; reflexivity).
      cbn [exc_bind]. destruct (search_l Conceptual.unsafe_copy _); cbn [exc_bind]; discriminate.
    + destruct (String.eqb_spec language "java") as [->|Hj]; [|cbn [exc_bind]; discriminate].
      destruct (contains code "new" && contains code "= null") eqn:Ec; cbn [exc_bind];
        [|discriminate].
      intros H. injection H as <-. left. auto.
Qed.

(** X13: the execution stage raises in two cases only, whether or not the
    engine is reachable: Java code containing both [new] and [= null],
    whose fallback raises [re.error], and Python code on which [ast.parse]
    raises something other than a [SyntaxError]; every other failure
    becomes a payload (the fallback analysis or a runtime-error text). *)
Theorem run_in_docker_raises ast_parse docker_available docker_from_env make_tmpdir
    cleanup_tmpdir write_source containers_run container_logs (code language : string)
    (e : pyexc) :
  Docker.run_in_docker ast_parse docker_available docker_from_env make_tmpdir cleanup_tmpdir
    write_source containers_run container_logs code language = Raise e ->
  (language = "java" /\ e = compile_error
   /\ contains code "new" && contains code "= null" = true)
  \/ (language = "python" /\ ast_parse code = Raise e /\ Docker.is_syntax_error e = false).
Proof.
  unfold Docker.run_in_docker.
  destruct (negb docker_available); [apply run_code_fallback_raises|].
  match goal with |- match ?m with _ => _ end = _ -> _ => destruct m end;
    [discriminate|apply run_code_fallback_raises].
Qed.

(** Witness: the engine is down and the Java code sets a new object to
    null. *)
Lemma run_in_docker_raises_witness :
  Docker.run_in_docker (fun _ => Ok tt) false (Ok tt) (Ok tt) (Ok tt) (fun _ _ => Ok tt)
    (fun _ _ => Ok tt) (fun _ _ => Ok "") "Object o = new Object(); o = null;" "java"
  = Raise compile_error
  /\ (("java" = "java" /\ compile_error = compile_error
       /\ contains "Object o = new Object(); o = null;" "new"
          && contains "Object o = new Object(); o = null;" "= null" = true)
      \/ ("java" = "python" /\ (fun _ => Ok tt) "Object o = new Object(); o = null;"
                                 = @Raise unit compile_error
          /\ Docker.is_syntax_error compile_error = false)).
Proof.
  assert (H : Docker.run_in_docker (fun _ => Ok tt) false (Ok tt) (Ok tt) (Ok tt)
                (fun _ _ => Ok tt) (fun _ _ => Ok tt) (fun _ _ => Ok "")
                "Object o = new Object(); o = null;" "java" = Raise compile_error)
    by reflexivity.
  split; [exact H|]. exact (run_in_docker_raises _ _ _ _ _ _ _ _ _ _ _ H).
Defined.

(* ------------------------------------------------------------------ *)
(** ** Entries of the repository results *)

Lemma dict_get_set_same {V} (k : string) (v : V) (d : dict V) :
  dict_get k (dict_set k v d) = Some v.
Proof.
  induction d as [|[k' v'] d IH]; simpl; [now rewrite String.eqb_refl|].
  destruct (String.eqb_spec k k'); simpl; [now rewrite String.eqb_refl|].
  apply String.eqb_neq in n. now rewrite n.
Qed.

Lemma dict_get_set_other {V} (k k' : string) (v : V) (d : dict V) :
  k <> k' -> dict_get k (dict_set k' v d) = dict_get k d.
Proof.
  intros Hk. apply String.eqb_neq in Hk.
  induction d as [|[k'' v''] d IH]; simpl; [now rewrite Hk|].
  destruct (String.eqb_spec k' k''); simpl.
  - subst. now rewrite Hk.
  - now rewrite IH.
Qed.

Section RepoEntries.

Variable llm_detect : string -> Exc string.
Variable static_py : string -> Exc (dict string).
Variable static_c : string -> bool -> Exc (dict string).
Variable exec : string -> string -> Exc string.
Variable synth : string -> dict string -> string -> string -> Exc string.
Variable read_file : string -> Exc string.

Local Abbreviation file_body :=
  (Endpoints.file_body llm_detect static_py static_c exec synth read_file).
Local Abbreviation repo_step :=
  (Endpoints.repo_step llm_detect static_py static_c exec synth read_file).

Lemma repo_fold_other (k : string) (walk : list walk_file) (acc : dict entry) :
  ~ In k (map rel_path (filter is_supported walk)) ->
  dict_get k (fold_left repo_step walk acc) = dict_get k acc.
Proof.
  revert acc. induction walk as [|w walk IH]; intros acc Hk; simpl; [reflexivity|].
  simpl in Hk. unfold Endpoints.repo_step at 2.
  destruct (is_supported w); [|now apply IH].
  simpl in Hk. rewrite IH by tauto.
  destruct (file_body (rel_path w)) as [[a|]|e]; try reflexivity;
    apply dict_get_set_other; intros ->; tauto.
Qed.

Lemma repo_fold_entry (walk : list walk_file) (w : walk_file) (acc : dict entry) :
  NoDup (map rel_path (filter is_supported walk)) -> In w walk -> is_supported w = true ->
  file_body (rel_path w) <> Ok None ->
  dict_get (rel_path w) (fold_left repo_step walk acc) = Some (entry_of (file_body (rel_path w))).
Proof.
  revert acc. induction walk as [|w' walk IH]; intros acc Hd Hin Hs Hn; [destruct Hin|].
  simpl. unfold Endpoints.repo_step at 2. simpl in Hd.
  destruct Hin as [<-|Hin].
  - rewrite Hs in Hd |- *. simpl in Hd. inversion Hd as [|? ? Hw Hps]; subst.
    rewrite repo_fold_other by exact Hw.
    destruct (file_body (rel_path w')) as [[a|]|e]; [| contradiction |];
      apply dict_get_set_same.
  - destruct (is_supported w') eqn:Hs'.
    + simpl in Hd. inversion Hd as [|? ? Hw Hps]; subst.
      apply IH; auto.
    + apply IH; auto.
Qed.

End RepoEntries.

(** X14: in the repository results, a Java file that contains both [new]
    and [= null], analysed while the execution engine is unavailable, is
    recorded as the error "invalid group reference 1 at position 28"
    instead of an analysis: the fallback's broken pattern makes the whole
    file fail. *)
Theorem repo_results_java_null_error llm_detect static_py static_c synth read_file
    ast_parse docker_available docker_from_env make_tmpdir cleanup_tmpdir write_source
    containers_run container_logs (walk : list walk_file) (w : walk_file) (code : string) :
  docker_available = false \/ (exists e, docker_from_env = Raise e) ->
  NoDup (map rel_path (filter is_supported walk)) -> In w walk -> is_supported w = true ->
  read_file (rel_path w) = Ok code ->
  Endpoints.detect_language_with_llm llm_detect code = Ok "java" ->
  contains code "new" && contains code "= null" = true ->
  dict_get (rel_path w)
    (Endpoints.repo_results llm_detect static_py static_c
       (Docker.run_in_docker ast_parse docker_available docker_from_env make_tmpdir
          cleanup_tmpdir write_source containers_run container_logs)
       synth read_file walk)
  = Some (EError "invalid group reference 1 at position 28").
Proof.
  intros Hdk Hd Hin Hs Hr Hl Hc.
  set (exec := Docker.run_in_docker ast_parse docker_available docker_from_env make_tmpdir
                 cleanup_tmpdir write_source containers_run container_logs).
  assert (Hx : exec code "java" = Raise compile_error).
  { unfold exec, Docker.run_in_docker.
    assert (Hf : Docker.run_code_fallback ast_parse code "java" = Raise compile_error)
      by (unfold Docker.run_code_fallback; cbn [String.eqb Ascii.eqb Bool.eqb existsb orb];
          rewrite Hc; reflexivity).
    destruct Hdk as [->|[e ->]]; [exact Hf|].
    destruct (negb docker_available); exact Hf. }
  assert (Hb : Endpoints.file_body llm_detect static_py static_c exec synth read_file (rel_path w)
               = Raise compile_error).
  { unfold Endpoints.file_body. rewrite Hr. cbn [exc_bind]. rewrite Hl. cbn [exc_bind].
    cbn [String.eqb Ascii.eqb Bool.eqb]. unfold Endpoints.issues_for.
    cbn [String.eqb Ascii.eqb Bool.eqb existsb orb exc_bind]. rewrite Hx. reflexivity. }
  unfold Endpoints.repo_results.
  rewrite (repo_fold_entry _ _ _ _ _ _ walk w [] Hd Hin Hs) by (rewrite Hb; discriminate).
  rewrite Hb. reflexivity.
Qed.

(** Witness: a clone with a Java file and a Python file, the engine off. *)
Lemma repo_results_java_null_error_witness :
  let walk := [mk_walk_file "src" "Main.java"; mk_walk_file "" "util.py"] in
  let w := mk_walk_file "src" "Main.java" in
  let code := "Object o = new Object(); o = null;" in
  (false = false \/ (exists e, @Ok unit tt = Raise e))
  /\ NoDup (map rel_path (filter is_supported walk)) /\ In w walk /\ is_supported w = true
  /\ (fun _ => Ok code) (rel_path w) = Ok code
  /\ Endpoints.detect_language_with_llm (fun _ => Ok "Java") code = Ok "java"
  /\ contains code "new" && contains code "= null" = true
  /\ dict_get (rel_path w)
       (Endpoints.repo_results (fun _ => Ok "Java") (fun _ => Ok []) (fun _ _ => Ok [])
          (Docker.run_in_docker (fun _ => Ok tt) false (Ok tt) (Ok tt) (Ok tt)
             (fun _ _ => Ok tt) (fun _ _ => Ok tt) (fun _ _ => Ok ""))
          (fun _ _ _ _ => Ok "") (fun _ => Ok code) walk)
     = Some (EError "invalid group reference 1 at position 28").
Proof.
  cbv zeta.
  assert (H0 : false = false \/ (exists e, @Ok unit tt = Raise e)) by (left; reflexivity).
  assert (H1 : NoDup (map rel_path (filter is_supported
                 [mk_walk_file "src" "Main.java"; mk_walk_file "" "util.py"]))).
  { vm_compute. constructor; [simpl; intuition discriminate|].
    constructor; [simpl; tauto|constructor]. }
  assert (H2 : In (mk_walk_file "src" "Main.java")
                 [mk_walk_file "src" "Main.java"; mk_walk_file "" "util.py"]) by (left; reflexivity).
  assert (H3 : is_supported (mk_walk_file "src" "Main.java") = true) by (vm_compute; reflexivity).
  assert (H4 : (fun _ : string => @Ok string "Object o = new Object(); o = null;")
                 (rel_path (mk_walk_file "src" "Main.java"))
               = Ok "Object o = new Object(); o = null;") by reflexivity.
  assert (H5 : Endpoints.detect_language_with_llm (fun _ => Ok "Java")
                 "Object o = new Object(); o = null;" = Ok "java") by reflexivity.
  assert (H6 : contains "Object o = new Object(); o = null;" "new"
               && contains "Object o = new Object(); o = null;" "= null" = true)
    by (vm_compute; reflexivity).
  do 7 (split; [assumption|]).
  exact (repo_results_java_null_error (fun _ => Ok "Java") (fun _ => Ok []) (fun _ _ => Ok [])
           (fun _ _ _ _ => Ok "") (fun _ => Ok "Object o = new Object(); o = null;")
           (fun _ => Ok tt) false (Ok tt) (Ok tt) (Ok tt) (fun _ _ => Ok tt) (fun _ _ => Ok tt)
           (fun _ _ => Ok "") _ _ _ H0 H1 H2 H3 H4 H5 H6).
Defined.

(* ------------------------------------------------------------------ *)
(** ** The Python fallback report of [ai_fix_agent] *)

(** A tool's section of the Python fallback report. *)
Definition tool_section (title v : string) : string :=
  if String.eqb v "No issues" then "" else Agent.section title v.

Lemma drop_trailing_nl_empty o : drop_trailing_nl o = ""%string <-> o = ""%string \/ o = nl.
Proof.
  split.
  - destruct o as [|c [|d r]]; cbn [drop_trailing_nl]; auto.
    + destruct (Nat.eqb_spec (nat_of_ascii c) 10) as [E|E]; intros H; [|discriminate H].
      right. unfold nl. rewrite <- E, ascii_nat_embedding. reflexivity.
    + intros H. discriminate H.
  - intros [->| ->]; reflexivity.
Qed.

Lemma py_strip_empty : py_strip "" = ""%string.
Proof. reflexivity. Qed.

(** X15: when the model fails on Python code analysed by
    [run_static_analysis], the fallback report is its header, the runtime
    section, a flake8 and a mypy section, and the general improvement
    list.  A tool's section is left out exactly when its recorded value
    is "No issues": when the tool printed nothing or a single newline
    ([getoutput] drops one trailing newline), or printed text that strips
    to "No issues".  Other output made only of whitespace strips to an
    empty value and gives an empty section, and a shell that could not be
    started gives its error message as the section. *)
Theorem ai_fix_agent_python_fallback llm_fix shell code s res s' runtime e :
  Tools.run_static_analysis shell code s = (Ok res, s') ->
  llm_fix code res runtime "python" = Raise e ->
  let p := tmp_name (tmp_next s) ".py" in
  let flake8 := shell ("flake8 " ++ p)%string (after_write s) in
  let mypy := shell ("mypy " ++ p)%string (snd flake8) in
  Agent.ai_fix_agent llm_fix code res runtime "python"
  = Ok (Agent.fallback_header ++ runtime_section runtime
        ++ tool_section "STATIC ANALYSIS (flake8):" (tool_value (fst flake8))
        ++ tool_section "TYPE CHECKING (mypy):" (tool_value (fst mypy))
        ++ Agent.improvements)%string
  /\ forall o, tool_value (Ok o) = "No issues"%string
               <-> o = ""%string \/ o = nl \/ py_strip (drop_trailing_nl o) = "No issues"%string.
Proof.
  intros Hr He. cbv zeta.
  rewrite run_static_analysis_steps in Hr. cbv zeta in Hr.
  destruct (Tools.unlink _ _) as [[u|e'] s3]; [|discriminate Hr].
  injection Hr as <- _. split.
  - unfold Agent.ai_fix_agent. rewrite He. f_equal.
    unfold Agent.fallback_response, Agent.reported, runtime_section, tool_section.
    cbn [Agent.is_c_lang existsb String.eqb Ascii.eqb Bool.eqb orb dict_get].
    set (f := tool_value _). set (m := tool_value _).
    destruct (negb (String.eqb runtime "") && negb (String.eqb runtime "No output")
              && negb (contains runtime "successfully"));
    destruct (String.eqb f "No issues"); destruct (String.eqb m "No issues");
    cbn [append]; rewrite ?string_app_assoc; reflexivity.
  - intros o. unfold tool_value. rewrite <- or_assoc, <- drop_trailing_nl_empty. cbv zeta.
    destruct (String.eqb_spec (drop_trailing_nl o) "") as [E|E].
    + rewrite E. split; [auto|reflexivity].
    + split; [auto|]. intros [H|H]; [contradiction|exact H].
Qed.

(** Witness: flake8 prints two spaces, mypy a lone newline. *)
Lemma ai_fix_agent_python_fallback_witness :
  let shell := fun cmd (t : fs) => if prefixb (chars "flake8") (chars cmd)
                                   then (@Ok string "  ", t) else (Ok nl, t) in
  Tools.run_static_analysis shell "x = 1" (mk_fs [] 0)
    = (Ok [("flake8", ""); ("mypy", "No issues")], mk_fs [] 1)
  /\ (fun _ _ _ _ => Raise (mk_exc "HfHubHTTPError" "503")) "x = 1"
       [("flake8", ""); ("mypy", "No issues")] "No output" "python"
     = @Raise string (mk_exc "HfHubHTTPError" "503")
  /\ Agent.ai_fix_agent (fun _ _ _ _ => Raise (mk_exc "HfHubHTTPError" "503")) "x = 1"
       [("flake8", ""); ("mypy", "No issues")] "No output" "python"
     = Ok (Agent.fallback_header ++ runtime_section "No output"
           ++ Agent.section "STATIC ANALYSIS (flake8):" ""
           ++ Agent.improvements)%string.
Proof.
  intros shell.
  assert (H1 : Tools.run_static_analysis shell "x = 1" (mk_fs [] 0)
               = (Ok [("flake8", ""); ("mypy", "No issues")], mk_fs [] 1))
    by (vm_compute; reflexivity).
  assert (H2 : (fun _ _ _ _ => Raise (mk_exc "HfHubHTTPError" "503")) "x = 1"
                 [("flake8", ""); ("mypy", "No issues")] "No output" "python"
               = @Raise string (mk_exc "HfHubHTTPError" "503")) by reflexivity.
  split; [exact H1|]. split; [exact H2|].
  destruct (ai_fix_agent_python_fallback _ shell "x = 1" (mk_fs [] 0) _ _ "No output" _ H1 H2)
    as [H _].
  cbv zeta in H. refine (eq_trans H _). vm_compute. reflexivity.
Defined.

(* ------------------------------------------------------------------ *)
(** ** Witnesses of the fallback properties *)

(** Witness: the fallback of a language it does not support. *)
Lemma run_code_fallback_default_unreachable_witness :
  Docker.run_code_fallback (fun _ => Ok tt) "fn main() {}" "rust"
  = Ok "Analysis for rust is not supported in fallback mode"
  /\ "Analysis for rust is not supported in fallback mode" <> "No issues detected by static analysis".
Proof.
  assert (H : Docker.run_code_fallback (fun _ => Ok tt) "fn main() {}" "rust"
              = Ok "Analysis for rust is not supported in fallback mode") by reflexivity.
  split; [exact H|]. exact (run_code_fallback_default_unreachable _ _ _ _ H).
Defined.

(** Witness: C code with a leak and a loop without condition. *)
Lemma run_code_fallback_c_conceptual_witness :
  In "c" ["c"; "cpp"]
  /\ exists found rest,
    Conceptual.conceptual_errors "int *p = malloc(4); for(;;);" = Ok (found ++ rest)
    /\ Docker.run_code_fallback (fun _ => Ok tt) "int *p = malloc(4); for(;;);" "c"
       = Ok (warnings_after (py_upper "c" ++ " code analysis (without execution):" ++ nl)
                            found)%string
    /\ (forall m, In m rest ->
          m = Conceptual.msg_dangling \/ exists n i s, m = Conceptual.msg_oob n i s)
    /\ (forall m, In m found ->
          m <> Conceptual.msg_dangling /\ forall n i s, m <> Conceptual.msg_oob n i s).
Proof.
  assert (H : In "c" ["c"; "cpp"]) by (left; reflexivity).
  split; [exact H|]. exact (run_code_fallback_c_conceptual _ "int *p = malloc(4); for(;;);" "c" H).
Defined.

